(** * DirectorApp: the Twilio webhook relay of [src/server.js]

    A shallow embedding of the Express application: the JavaScript values a
    parsed request body can hold, the coercions the handler relies on
    ([ToString], [ToBoolean], [parseInt]), a small state-and-exception monad
    for the observable effects (console output, the HTTP response, the
    outbound axios call), the start-up check of the environment and the
    middleware pipeline; then the properties of the relay. *)

From Stdlib Require Import String Ascii List ZArith Bool Lia.
From Stdlib Require Import DecimalString DecimalPos.
Import ListNotations.
Open Scope string_scope.
Open Scope Z_scope.
Set Warnings "-register-all".

(* ================================================================== *)
(** ** JavaScript values *)
(* ================================================================== *)

Module Js.

(** The largest magnitude below which every integer is a double:
    2^53. *)
Definition max_safe : Z := 9007199254740992.

(** An integer of magnitude at most 2^53.  Such a number is a double, it
    prints as its decimal digits, and [parseInt] reads it back. *)
Record safe : Type := mkSafe {
  int :> Z;
  in_range : (Z.abs int <=? max_safe) = true
}.

(** What [express.json] and [express.urlencoded({extended: true})] can put
    in [req.body]: JSON data.  Objects keep their own properties in
    insertion order.  Numbers are the integers of [safe]: fractions and
    larger magnitudes are not values of this type.  Strings are sequences
    of 8-bit characters holding UTF-8 text. *)
Inductive value : Type :=
  | JUndefined
  | JNull
  | JBool (b : bool)
  | JNum (n : safe)
  | JStr (s : string)
  | JArr (elems : list value)
  | JObj (props : list (string * value)).

(** The result of [parseInt]: [NaN], an integer that is a double, or an
    infinity. *)
Inductive number : Type :=
  | NaN
  | Int (n : Z)
  | Inf (negative : bool).

(** A thrown value: an [Error] with its [message] and, for the errors axios
    raises on a non-2xx answer, the [response] (status and data). *)
Record exn : Type := mkExn {
  message : string;
  response : option (Z * value)
}.

Definition TypeError (msg : string) : exn := mkExn msg None.

(** Outcome of an evaluation: it returns, it throws, or it never ends. *)
Inductive result (A : Type) : Type :=
  | Ok (a : A)
  | Throw (e : exn)
  | Hang.
Arguments Ok {A} a.
Arguments Throw {A} e.
Arguments Hang {A}.

(** [ToBoolean]: the test of [if (mediaUrl)] and of [!process.env[name]]. *)
Definition truthy (v : value) : bool :=
  match v with
  | JUndefined | JNull => false
  | JBool b => b
  | JNum n => negb (int n =? 0)
  | JStr s => negb (String.eqb s "")
  | JArr _ | JObj _ => true
  end.

Definition is_undefined (v : value) : bool :=
  match v with JUndefined => true | _ => false end.

(** Own-property lookup in an object's property list. *)
Fixpoint assoc (k : string) (props : list (string * value)) : option value :=
  match props with
  | [] => None
  | (k', v) :: rest => if String.eqb k k' then Some v else assoc k rest
  end.

Definition has_own (k : string) (props : list (string * value)) : bool :=
  match assoc k props with Some _ => true | None => false end.

(** [o[k]] for the property names the handler reads ([From], [To], [Body],
    [MessageSid], [NumMedia], [MediaUrl<i>]).  None of them is an array
    index, [length], or a property of [Object.prototype],
    [Array.prototype] or a primitive wrapper, so only an object's own
    properties can answer; reading a property of [undefined] or [null]
    throws. *)
Definition get (o : value) (k : string) : result value :=
  match o with
  | JUndefined | JNull =>
      Throw (TypeError ("Cannot read properties of undefined or null: " ++ k))
  | JObj props =>
      Ok (match assoc k props with Some v => v | None => JUndefined end)
  | _ => Ok JUndefined
  end.

(** Destructuring default [= d]: used when the property is [undefined]. *)
Definition default (v d : value) : value :=
  if is_undefined v then d else v.

(** Decimal rendering of an integer ([Number::toString] on integers). *)
Definition dec_nat (n : nat) : string :=
  NilEmpty.string_of_uint (Nat.to_uint n).

Definition dec (n : Z) : string :=
  match n with
  | Z0 => "0"
  | Zpos p => NilEmpty.string_of_uint (Pos.to_uint p)
  | Zneg p => "-" ++ NilEmpty.string_of_uint (Pos.to_uint p)
  end.

(** [ToString], as applied by a template literal and by [parseInt].
    [None] is the [TypeError] of [OrdinaryToPrimitive]: parsed data holds no
    functions, so an object with an own [toString] property shadows
    [Object.prototype.toString] with something not callable, and
    [Object.prototype.valueOf] gives back the object.  An array is joined
    with commas, [undefined] and [null] elements printing as nothing. *)
Fixpoint to_string (v : value) : option string :=
  match v with
  | JUndefined => Some "undefined"
  | JNull => Some "null"
  | JBool true => Some "true"
  | JBool false => Some "false"
  | JNum n => Some (dec (int n))
  | JStr s => Some s
  | JArr elems =>
      let elem (e : value) : option string :=
        match e with
        | JUndefined | JNull => Some ""
        | _ => to_string e
        end in
      (fix join (l : list value) : option string :=
         match l with
         | [] => Some ""
         | [e] => elem e
         | e :: rest =>
             match elem e, join rest with
             | Some s, Some r => Some (s ++ "," ++ r)
             | _, _ => None
             end
         end) elems
  | JObj props =>
      if has_own "toString" props then None else Some "[object Object]"
  end.

Definition ToString (v : value) : result string :=
  match to_string v with
  | Some s => Ok s
  | None => Throw (TypeError "Cannot convert object to primitive value")
  end.

(** *** [parseInt(s, 10)] *)

Definition codes (s : string) : list nat :=
  map nat_of_ascii (list_ascii_of_string s).

(** [StrWhiteSpaceChar]: TAB, LF, VT, FF, CR, SP and, in their UTF-8
    encodings, U+00A0, U+1680, U+2000..U+200A, U+2028, U+2029, U+202F,
    U+205F, U+3000 and U+FEFF. *)
Definition ws1 (c : nat) : bool :=
  ((9 <=? c) && (c <=? 13) || (c =? 32))%nat.

Definition ws2 (c1 c2 : nat) : bool :=
  ((c1 =? 194) && (c2 =? 160))%nat.

Definition ws3 (c1 c2 c3 : nat) : bool :=
  ((c1 =? 225) && (c2 =? 154) && (c3 =? 128)
   || (c1 =? 226) && (c2 =? 128)
      && ((128 <=? c3) && (c3 <=? 138) || (c3 =? 168) || (c3 =? 169)
          || (c3 =? 175))
   || (c1 =? 226) && (c2 =? 129) && (c3 =? 159)
   || (c1 =? 227) && (c2 =? 128) && (c3 =? 128)
   || (c1 =? 239) && (c2 =? 187) && (c3 =? 191))%nat.

(** Drop the leading white space of a string. *)
Fixpoint skip_ws (l : list nat) : list nat :=
  match l with
  | [] => []
  | c1 :: l1 =>
      if ws1 c1 then skip_ws l1
      else
        match l1 with
        | [] => l
        | c2 :: l2 =>
            if ws2 c1 c2 then skip_ws l2
            else
              match l2 with
              | [] => l
              | c3 :: l3 => if ws3 c1 c2 c3 then skip_ws l3 else l
              end
        end
  end.

Definition is_digit (c : nat) : bool := ((48 <=? c) && (c <=? 57))%nat.

(** The longest prefix of decimal digits, as the integer it denotes;
    [None] when the prefix is empty. *)
Fixpoint digits (l : list nat) (acc : option Z) : option Z :=
  match l with
  | c :: rest =>
      if is_digit c
      then digits rest
             (Some (10 * match acc with Some a => a | None => 0 end
                    + Z.of_nat (c - 48)))
      else acc
  | [] => acc
  end.

(** The double nearest to the integer [m >= 0], ties going to the even
    significand of 53 bits. *)
Definition round53 (m : Z) : Z :=
  let bits := Z.log2 m + 1 in
  if bits <=? 53 then m
  else
    let sh := bits - 53 in
    let q := Z.shiftr m sh in
    let r := m mod 2 ^ sh in
    let half := 2 ^ (sh - 1) in
    let q := if (half <? r) || ((r =? half) && Z.odd q) then q + 1 else q in
    Z.shiftl q sh.

(** The Number value of [sign * m]: what rounds to 2^1024 or more is an
    infinity. *)
Definition to_number (sign m : Z) : number :=
  let x := round53 m in
  if x <? 2 ^ 1024 then Int (sign * x) else Inf (sign <? 0).

(** [parseInt(s, 10)]: white space is skipped, a sign is taken off, and
    the digits that follow are read; what comes after them is ignored.
    The integer read is rounded to a double. *)
Definition parseInt (s : string) : number :=
  let l := skip_ws (codes s) in
  let sign :=
    match l with
    | c :: _ => if (c =? 45)%nat then -1 else 1
    | [] => 1
    end in
  let l :=
    match l with
    | c :: rest => if ((c =? 45) || (c =? 43))%nat then rest else l
    | [] => l
    end in
  match digits l None with
  | Some n => to_number sign n
  | None => NaN
  end.

End Js.

(* ================================================================== *)
(** ** [Date.prototype.toISOString] *)
(* ================================================================== *)

Module Date.

(** The last decimal digit of [n], as a character. *)
Definition digit (n : Z) : ascii :=
  ascii_of_nat (48 + Z.to_nat (n mod 10)).

(** The last [w] decimal digits of [n]: [n] padded with zeros on the left
    when [0 <= n < 10^w], which holds for every field of a date. *)
Fixpoint pad (w : nat) (n : Z) : string :=
  match w with
  | O => ""
  | S w' => pad w' (n / 10) ++ String (digit n) ""
  end.

(** Year, month and day of the proleptic Gregorian calendar for a day
    number counted from 1970-01-01. *)
Definition civil (day : Z) : Z * Z * Z :=
  let z := day + 719468 in
  let era := z / 146097 in
  let doe := z mod 146097 in
  let yoe := (doe - doe / 1460 + doe / 36524 - doe / 146096) / 365 in
  let doy := doe - (365 * yoe + yoe / 4 - yoe / 100) in
  let mp := (5 * doy + 2) / 153 in
  let d := doy - (153 * mp + 2) / 5 + 1 in
  let m := if mp <? 10 then mp + 3 else mp - 9 in
  let y := yoe + era * 400 + (if m <=? 2 then 1 else 0) in
  (y, m, d).

(** [new Date(t).toISOString()] for [t] milliseconds since the epoch:
    [YYYY-MM-DDTHH:mm:ss.sssZ], with a signed six-digit year outside
    0..9999. *)
Definition toISOString (t : Z) : string :=
  let '(y, m, d) := civil (t / 86400000) in
  let ms := t mod 86400000 in
  let year :=
    if (0 <=? y) && (y <=? 9999) then pad 4 y
    else (if y <? 0 then "-" else "+") ++ pad 6 (Z.abs y) in
  year ++ "-" ++ pad 2 m ++ "-" ++ pad 2 d
    ++ "T" ++ pad 2 (ms / 3600000)
    ++ ":" ++ pad 2 (ms / 60000 mod 60)
    ++ ":" ++ pad 2 (ms / 1000 mod 60)
    ++ "." ++ pad 3 (ms mod 1000) ++ "Z".

End Date.

(* ================================================================== *)
(** ** Observable effects *)
(* ================================================================== *)

Module Http.
Import Js.

Inductive method : Type :=
  | GET | HEAD | POST | PUT | PATCH | DELETE | OPTIONS.

Definition method_eqb (a b : method) : bool :=
  match a, b with
  | GET, GET | HEAD, HEAD | POST, POST | PUT, PUT | PATCH, PATCH
  | DELETE, DELETE | OPTIONS, OPTIONS => true
  | _, _ => false
  end.

(** What the body-parsing middleware made of the request: [req.body], or
    the error it passed to [next] (malformed JSON, entity too large, ...). *)
Inductive parsed : Type :=
  | Parsed (body : value)
  | Rejected (err : exn).

Record request : Type := mkRequest {
  req_method : method;
  req_path : string;
  req_headers : list (string * string);
  req_parsed : parsed
}.

(** The body handed to [res.send], [res.json] or [res.end]. *)
Inductive content : Type :=
  | Text (s : string)
  | Json (v : value)
  | NoContent.

(** The arguments of [axios.post(url, data, {headers, timeout})]. *)
Record call : Type := mkCall {
  call_method : method;
  call_url : string;
  call_data : list (string * value);
  call_headers : list (string * string);
  call_timeout : Z
}.

(** One constructor per [console.log] / [console.error] statement, with
    the data it prints; the pictographs that open some messages are left
    out. *)
Inductive line : Type :=
  | MissingEnv (names : string)
  | DebugRequest (timestamp : string) (m : method) (path : string)
  | DebugHeaders (headers : list (string * string))
  | DebugBody (body : value)
  | Received (from to : string)
  | Forwarding (url : string)
  | Forwarded (processingTime : Z)
  | ForwardResponse (data : value)
  | ForwardFailed (processingTime : Z) (msg : string)
  | ResponseStatus (status : Z)
  | ResponseData (data : value)
  | WebhookError (error : exn)
  | GlobalError (error : exn)
  | Running (port : value)
  | Banner (text : string).

(** What the program does, as far as it can be observed.  [Respond status
    body] is a call [res.status(status)] followed by [send], [json] or
    [end] with [body] (for [status] 204 the answer of the CORS middleware):
    the status and the body the program hands to Express.  What Express
    then writes on the wire (no body in answer to HEAD, 304 in answer to
    a conditional GET that is fresh) is not part of the model.  [Forward
    c] is the call of [axios.post], [UnhandledRejection e] a rejected
    promise nobody awaits, [Uncaught e] an error that reaches the top of
    the process, [Listen port] the server listening, [Exit code] the end
    of the process. *)
Inductive event : Type :=
  | Log (l : line)
  | LogError (l : line)
  | Respond (status : Z) (body : content)
  | Forward (c : call)
  | UnhandledRejection (e : exn)
  | Uncaught (e : exn)
  | Listen (port : value)
  | Exit (code : Z).

(** The places where the program reads the clock. *)
Inductive site : Type :=
  | AtDebugLog | AtHealth | AtStart | AtReceived | AtSettled.

(** How the downstream application behaves when called. *)
Inductive downstream : Type :=
  | Answers (status : Z) (data : value)
  | Unreachable (msg : string)
  | Silent.

(** The world outside a request: the clock reading at each site
    (milliseconds since the epoch) and the downstream application. *)
Record world : Type := mkWorld {
  clock : site -> Z;
  main_app : downstream
}.

(** Per-request state: the events so far, oldest first, and
    [res.headersSent]. *)
Record state : Type := mkState {
  trace : list event;
  headersSent : bool
}.

Definition init : state := mkState [] false.

(** Computations with effects on the state that may throw or never
    end. *)
Definition M (A : Type) : Type := state -> result A * state.

Definition ret {A} (a : A) : M A := fun s => (Ok a, s).

Definition bind {A B} (m : M A) (k : A -> M B) : M B :=
  fun s =>
    match m s with
    | (Ok a, s') => k a s'
    | (Throw e, s') => (Throw e, s')
    | (Hang, s') => (Hang, s')
    end.

Definition throw {A} (e : exn) : M A := fun s => (Throw e, s).

Definition lift {A} (r : result A) : M A := fun s => (r, s).

(** [try { m } catch (e) { h e }]: a block that never ends is not
    caught. *)
Definition try_catch {A} (m : M A) (h : exn -> M A) : M A :=
  fun s =>
    match m s with
    | (Ok a, s') => (Ok a, s')
    | (Throw e, s') => h e s'
    | (Hang, s') => (Hang, s')
    end.

Definition emit (e : event) : M unit :=
  fun s => (Ok tt, mkState (trace s ++ [e]) (headersSent s)).

Definition console_log (l : line) : M unit := emit (Log l).
Definition console_error (l : line) : M unit := emit (LogError l).

(** [res.status(code).send(body)] and its variants; Express throws when
    the headers have been sent already. *)
Definition send (code : Z) (body : content) : M unit :=
  fun s =>
    if headersSent s
    then (Throw (mkExn "Cannot set headers after they are sent to the client"
                   None), s)
    else (Ok tt, mkState (trace s ++ [Respond code body]) true).

Definition get_headersSent : M bool := fun s => (Ok (headersSent s), s).

Definition when (b : bool) (m : M unit) : M unit :=
  if b then m else ret tt.

(** [await axios.post(...)]: the call goes out; the promise resolves with
    the response when the status is 2xx and rejects otherwise, with the
    response attached when there was one. *)
Definition axios_post (W : world) (c : call) : M (Z * value) :=
  bind (emit (Forward c)) (fun _ =>
    match main_app W with
    | Answers status data =>
        if (200 <=? status) && (status <? 300)
        then ret (status, data)
        else throw (mkExn ("Request failed with status code " ++ dec status)
                      (Some (status, data)))
    | Unreachable msg => throw (mkExn msg None)
    | Silent =>
        throw (mkExn ("timeout of " ++ dec (call_timeout c) ++ "ms exceeded")
                 None)
    end).

Definition responses (t : list event) : list (Z * content) :=
  flat_map (fun e => match e with Respond c b => [(c, b)] | _ => [] end) t.

Definition forwards (t : list event) : list call :=
  flat_map (fun e => match e with Forward c => [c] | _ => [] end) t.

Definition is_log (e : event) : bool :=
  match e with Log _ | LogError _ => true | _ => false end.

(** The trace without console output. *)
Definition visible (t : list event) : list event :=
  filter (fun e => negb (is_log e)) t.

End Http.

Declare Scope js_scope.
Delimit Scope js_scope with js.
Notation "x <- m ;; k" := (Http.bind m (fun x => k))
  (at level 100, m at next level, right associativity) : js_scope.
Notation "m ;; k" := (Http.bind m (fun _ => k))
  (at level 100, right associativity) : js_scope.

(* ================================================================== *)
(** ** The server *)
(* ================================================================== *)

Module Server.
Import Js Http.
Local Open Scope js_scope.

(** *** Configuration and start-up (lines 7-20) *)

Definition environment : Type := list (string * string).

Fixpoint getenv (name : string) (env : environment) : option string :=
  match env with
  | [] => None
  | (k, v) :: rest => if String.eqb name k then Some v else getenv name rest
  end.

(** [process.env[name]]: a string, or [undefined]. *)
Definition process_env (env : environment) (name : string) : value :=
  match getenv name env with
  | Some s => JStr s
  | None => JUndefined
  end.

Record config : Type := mkConfig {
  PORT : value;
  MAIN_APP_URL : string;
  SUPABASE_ANON_KEY : string;
  DEBUG_MODE : bool
}.

Definition requiredEnvVars : list string :=
  ["MAIN_APP_URL"; "SUPABASE_ANON_KEY"].

Definition missingEnvVars (env : environment) : list string :=
  filter (fun varName => negb (truthy (process_env env varName)))
    requiredEnvVars.

(** A variable as it prints in a template literal.  The two required
    variables are non-empty strings once the check of line 13 has passed. *)
Definition text (env : environment) (name : string) : string :=
  match getenv name env with Some s => s | None => "undefined" end.

Definition default_port : safe := mkSafe 3001 eq_refl.

Definition load (env : environment) : config :=
  {| PORT := if truthy (process_env env "PORT")
             then process_env env "PORT" else JNum default_port;
     MAIN_APP_URL := text env "MAIN_APP_URL";
     SUPABASE_ANON_KEY := text env "SUPABASE_ANON_KEY";
     DEBUG_MODE :=
       match getenv "DEBUG_MODE" env with
       | Some s => String.eqb s "true"
       | None => false
       end |}.

(** The outcome of running the top level of the module: the process has
    exited, or the application is listening with its configuration. *)
Inductive boot : Type :=
  | Exited (events : list event)
  | Serving (cfg : config) (events : list event).

(** What the platform makes of [app.listen(PORT)]: the server listens
    ([None]), or the call fails with an error nobody handles (a port out
    of range, a port in use, a port the process may not bind). *)
Definition platform : Type := value -> option exn.

(** Lines 10-20 and 147-154.  An error of [app.listen] is uncaught: the
    process exits with code 1 and the callback of line 147 never runs. *)
Definition startup (env : environment) (os : platform) : boot :=
  if (0 <? length (missingEnvVars env))%nat
  then Exited [LogError (MissingEnv (String.concat ", " (missingEnvVars env)));
               Exit 1]
  else
    let cfg := load env in
    match os (PORT cfg) with
    | Some e => Exited [Uncaught e; Exit 1]
    | None =>
        Serving cfg
          [Listen (PORT cfg);
           Log (Running (PORT cfg));
           Log (Banner ("Main app URL: " ++ MAIN_APP_URL cfg));
           Log (Banner ("Debug mode: "
                        ++ if DEBUG_MODE cfg then "enabled" else "disabled"));
           Log (Banner "Available endpoints:");
           Log (Banner "   GET  /health - Health check");
           Log (Banner "   POST /twilio-webhook - Twilio webhook handler")]
    end.

(** *** Handlers *)

Definition dq : string := String "034"%char EmptyString.

(** The acknowledgment document of lines 75 and 124. *)
Definition twiml : string :=
  "<?xml version=" ++ dq ++ "1.0" ++ dq ++ " encoding=" ++ dq ++ "UTF-8" ++ dq
    ++ "?><Response></Response>".

(** Debug logging middleware (lines 30-35). *)
Definition debug_logger (W : world) (req : request) (body : value) : M unit :=
  console_log
    (DebugRequest (Date.toISOString (clock W AtDebugLog))
       (req_method req) (req_path req));;
  console_log (DebugHeaders (req_headers req));;
  console_log (DebugBody body).

(** Health check endpoint (lines 39-45). *)
Definition health (cfg : config) (W : world) : M unit :=
  send 200
    (Json (JObj [("status", JStr "healthy");
                 ("timestamp", JStr (Date.toISOString (clock W AtHealth)));
                 ("mainAppUrl", JStr (MAIN_APP_URL cfg))])).

(** [i < mediaCount] for a finite [i]: false against [NaN]. *)
Definition less_than (i : Z) (n : number) : bool :=
  match n with
  | NaN => false
  | Int m => i <? m
  | Inf negative => negb negative
  end.

(** [i++] on the loop counter, a double: below 2^53 the sum is exact, and
    at 2^53 the sum 2^53 + 1 rounds back to 2^53. *)
Definition incr (i : Z) : Z :=
  if i <? max_safe then i + 1 else i.

(** The loop of lines 67-72, started at index [i] with the list built so
    far, for at most [fuel] iterations: when the test still holds after
    them, the loop has not ended. *)
Fixpoint media_loop (body : value) (mediaCount : number) (fuel : nat)
    (i : Z) (mediaUrls : list value) : result (list value) :=
  match fuel with
  | O => if less_than i mediaCount then Hang else Ok mediaUrls
  | S fuel' =>
      if less_than i mediaCount
      then
        match get body ("MediaUrl" ++ dec i) with
        | Ok mediaUrl =>
            media_loop body mediaCount fuel' (incr i)
              (if truthy mediaUrl then mediaUrls ++ [mediaUrl]
               else mediaUrls)
        | Throw e => Throw e
        | Hang => Hang
        end
      else Ok mediaUrls
  end.

(** A count the counter never reaches: above 2^53, where [i++] sticks. *)
Definition runs_forever (mediaCount : number) : bool :=
  match mediaCount with
  | NaN => false
  | Int n => max_safe <? n
  | Inf negative => negb negative
  end.

(** The number of indices [0 <= i < mediaCount], for a count the counter
    reaches. *)
Definition iterations (mediaCount : number) : nat :=
  match mediaCount with
  | NaN => O
  | Int n => Z.to_nat n
  | Inf _ => O
  end.

(** The loop from index 0 with the fuel that decides it: as many
    iterations as the count when the counter reaches it, and one when it
    does not, since no number of iterations ends the loop then (see
    [media_loop_enough]). *)
Definition collect (body : value) (mediaCount : number) :
    result (list value) :=
  media_loop body mediaCount
    (if runs_forever mediaCount then 1%nat else iterations mediaCount) 0 [].

Definition forward_url (cfg : config) : string :=
  MAIN_APP_URL cfg ++ "/api/twilio/webhook".

Definition forward_call (cfg : config) (payload : list (string * value)) :
    call :=
  {| call_method := POST;
     call_url := forward_url cfg;
     call_data := payload;
     call_headers :=
       [("Content-Type", "application/json");
        ("Authorization", "Bearer " ++ SUPABASE_ANON_KEY cfg)];
     call_timeout := 30000 |}.

(** The object of lines 78-85. *)
Definition payload (from to body : value) (mediaUrls : list value)
    (messageId : value) (receivedAt : string) : list (string * value) :=
  [("from", from);
   ("to", to);
   ("body", body);
   ("mediaUrls", JArr mediaUrls);
   ("messageId", messageId);
   ("receivedAt", JStr receivedAt)].

(** Forward to main app (lines 90-117): the inner [try] and [catch]. *)
Definition forward (cfg : config) (W : world) (startTime : Z)
    (data : list (string * value)) : M unit :=
  try_catch
    (forwardResponse <- axios_post W (forward_call cfg data);;
     let processingTime := clock W AtSettled - startTime in
     console_log (Forwarded processingTime);;
     when (DEBUG_MODE cfg)
       (console_log (ForwardResponse (snd forwardResponse))))
    (fun forwardError =>
       let processingTime := clock W AtSettled - startTime in
       console_error (ForwardFailed processingTime (message forwardError));;
       match response forwardError with
       | Some (status, data) =>
           console_error (ResponseStatus status);;
           console_error (ResponseData data)
       | None => ret tt
       end).

(** The [try] block of the Twilio webhook endpoint (lines 50-117). *)
Definition webhook_try (cfg : config) (W : world) (req_body : value) :
    M unit :=
  let startTime := clock W AtStart in
  from <- lift (get req_body "From");;
  to <- lift (get req_body "To");;
  Body <- lift (get req_body "Body");;
  let body := default Body (JStr "") in
  messageId <- lift (get req_body "MessageSid");;
  NumMedia <- lift (get req_body "NumMedia");;
  let numMedia := default NumMedia (JStr "0") in
  from_s <- lift (ToString from);;
  to_s <- lift (ToString to);;
  console_log (Received from_s to_s);;
  numMedia_s <- lift (ToString numMedia);;
  let mediaCount := parseInt numMedia_s in
  mediaUrls <- lift (collect req_body mediaCount);;
  send 200 (Text twiml);;
  let receivedAt := Date.toISOString (clock W AtReceived) in
  console_log (Forwarding (forward_url cfg));;
  forward cfg W startTime
    (payload from to body mediaUrls messageId receivedAt).

(** Its [catch] block (lines 119-126). *)
Definition webhook_catch (error : exn) : M unit :=
  console_error (WebhookError error);;
  sent <- get_headersSent;;
  when (negb sent) (send 500 (Text twiml)).

(** Twilio webhook endpoint (lines 48-127). *)
Definition twilio_webhook (cfg : config) (W : world) (req_body : value) :
    M unit :=
  try_catch (webhook_try cfg W req_body) webhook_catch.

(** Catch-all for undefined routes (lines 130-135). *)
Definition not_found : M unit :=
  send 404
    (Json (JObj [("error", JStr "Route not found");
                 ("availableRoutes",
                  JArr [JStr "/health"; JStr "/twilio-webhook"])])).

(** Global error handler (lines 138-144). *)
Definition error_handler (cfg : config) (error : exn) : M unit :=
  console_error (GlobalError error);;
  send 500
    (Json (JObj [("error", JStr "Internal server error");
                 ("message",
                  JStr (if DEBUG_MODE cfg then message error
                        else "Something went wrong"))])).

(** *** Routing *)

Definition lower (c : ascii) : ascii :=
  let n := nat_of_ascii c in
  if ((65 <=? n) && (n <=? 90))%nat then ascii_of_nat (n + 32) else c.

Fixpoint lowercase (s : string) : string :=
  match s with
  | EmptyString => EmptyString
  | String c rest => String (lower c) (lowercase rest)
  end.

(** Express matches a route path without regard to case and with an
    optional trailing slash. *)
Definition matches (route path : string) : bool :=
  String.eqb (lowercase path) route
  || String.eqb (lowercase path) (route ++ "/").

(** [decodeURIComponent], as far as it succeeds or throws.  A hexadecimal
    digit: *)
Definition hex (c : nat) : option nat :=
  if ((48 <=? c) && (c <=? 57))%nat then Some (c - 48)%nat
  else if ((65 <=? c) && (c <=? 70))%nat then Some (c - 55)%nat
  else if ((97 <=? c) && (c <=? 102))%nat then Some (c - 87)%nat
  else None.

(** After the first octet of a UTF-8 sequence: the number of octets that
    must follow and the bounds of the next one; [None] for an octet that
    cannot start a sequence. *)
Definition lead (octet : nat) : option (nat * nat * nat) :=
  if (octet <? 128)%nat then Some (0, 128, 191)%nat
  else if ((194 <=? octet) && (octet <=? 223))%nat then Some (1, 128, 191)%nat
  else if (octet =? 224)%nat then Some (2, 160, 191)%nat
  else if (octet =? 237)%nat then Some (2, 128, 159)%nat
  else if ((225 <=? octet) && (octet <=? 239))%nat then Some (2, 128, 191)%nat
  else if (octet =? 240)%nat then Some (3, 144, 191)%nat
  else if ((241 <=? octet) && (octet <=? 243))%nat then Some (3, 128, 191)%nat
  else if (octet =? 244)%nat then Some (3, 128, 143)%nat
  else None.

(** Where the decoder stands: between characters, after a percent sign,
    after the first digit of an escape. *)
Inductive phase : Type :=
  | Plain
  | Percent
  | Nibble (high : nat).

(** Whether the characters [l] decode, with [need] escaped octets of the
    current UTF-8 sequence still to come, the next one within
    [lo .. hi]. *)
Fixpoint decodes (l : list nat) (ph : phase) (need lo hi : nat) : bool :=
  match l with
  | [] => match ph with Plain => (need =? 0)%nat | _ => false end
  | c :: rest =>
      match ph with
      | Plain =>
          if (c =? 37)%nat then decodes rest Percent need lo hi
          else (need =? 0)%nat && decodes rest Plain 0 lo hi
      | Percent =>
          match hex c with
          | Some h => decodes rest (Nibble h) need lo hi
          | None => false
          end
      | Nibble h =>
          match hex c with
          | Some d =>
              let octet := (16 * h + d)%nat in
              if (need =? 0)%nat
              then match lead octet with
                   | Some (n, lo', hi') => decodes rest Plain n lo' hi'
                   | None => false
                   end
              else ((lo <=? octet) && (octet <=? hi))%nat
                   && decodes rest Plain (need - 1) 128 191
          | None => false
          end
      end
  end.

(** [decodeURIComponent(path)] succeeds: every percent sign opens an
    escape of two hexadecimal digits, and the escaped octets from 128 on
    form well-formed UTF-8. *)
Definition decodable (path : string) : bool :=
  decodes (codes path) Plain 0 128 191.

(** The error Express raises when it cannot decode what a route
    captured. *)
Definition URIError (path : string) : exn :=
  mkExn ("Failed to decode param '" ++ path ++ "'") None.

(** [app.get] also serves HEAD requests. *)
Definition is_get (m : method) : bool :=
  match m with GET | HEAD => true | _ => false end.

(** A synchronous handler: what it throws goes to the error handler. *)
Definition sync (cfg : config) (h : M unit) : M unit :=
  try_catch h (error_handler cfg).

(** An [async] handler: Express does not look at the promise it returns,
    so a rejection is left unhandled. *)
Definition async (h : M unit) : M unit :=
  try_catch h (fun e => emit (UnhandledRejection e)).

(** The middleware stack in registration order (lines 23-144).  [helmet]
    only sets response headers.  [cors] ends an OPTIONS request as a
    preflight, with status 204.  When a body parser fails, the remaining
    middleware and the routes are skipped up to the error handler.  The
    two routes match the path as it is; the catch-all of line 130 captures
    the path and Express decodes what is captured, so that a path that
    does not decode goes to the error handler as well. *)
Definition app (cfg : config) (W : world) (req : request) : M unit :=
  if method_eqb (req_method req) OPTIONS then send 204 NoContent
  else
    match req_parsed req with
    | Rejected err => error_handler cfg err
    | Parsed body =>
        when (DEBUG_MODE cfg) (debug_logger W req body);;
        if is_get (req_method req) && matches "/health" (req_path req)
        then sync cfg (health cfg W)
        else if method_eqb (req_method req) POST
                && matches "/twilio-webhook" (req_path req)
        then async (twilio_webhook cfg W body)
        else if decodable (req_path req)
        then sync cfg not_found
        else error_handler cfg (URIError (req_path req))
    end.

(** Everything observable while one request is served. *)
Definition serve (cfg : config) (W : world) (req : request) : list event :=
  trace (snd (app cfg W req init)).

(** Whether serving the request ends, and without an exception reaching
    the top. *)
Definition completes (cfg : config) (W : world) (req : request) : bool :=
  match fst (app cfg W req init) with Ok _ => true | _ => false end.

(** Whether serving the request ends at all.  A handler that never ends
    keeps the one thread of the process: nothing else runs after it. *)
Definition finishes (cfg : config) (W : world) (req : request) : bool :=
  match fst (app cfg W req init) with Hang => false | _ => true end.

(** The requests that arrive, served one after the other, each with the
    world it meets, as long as the handlers end. *)
Fixpoint serve_all (cfg : config) (arrivals : list (world * request)) :
    list event :=
  match arrivals with
  | [] => []
  | (W, req) :: rest =>
      serve cfg W req
      ++ (if finishes cfg W req then serve_all cfg rest else [])
  end.

(** The process: start-up, then the requests that arrive. *)
Definition run (env : environment) (os : platform)
    (arrivals : list (world * request)) : list event :=
  match startup env os with
  | Exited events => events
  | Serving cfg events => events ++ serve_all cfg arrivals
  end.

End Server.

(* ================================================================== *)
(** ** Vocabulary of the properties *)
(* ================================================================== *)

Module Props.
Import Js Http Server.

Definition nullish (v : value) : bool :=
  match v with JUndefined | JNull => true | _ => false end.

(** The value of a field of the request body, [undefined] when absent. *)
Definition field (req_body : value) (k : string) : value :=
  match get req_body k with
  | Ok v => v
  | _ => JUndefined
  end.

Definition printable (v : value) : bool :=
  match to_string v with Some _ => true | None => false end.

(** The name of the [i]-th attachment field. *)
Definition MediaUrl (i : nat) : string := "MediaUrl" ++ dec (Z.of_nat i).

(** The attachment list of lines 53-72, apart from the rest of the
    handler: it depends on [NumMedia] and the [MediaUrl<i>] fields only. *)
Definition attachments (req_body : value) : result (list value) :=
  match get req_body "NumMedia" with
  | Ok NumMedia =>
      match ToString (default NumMedia (JStr "0")) with
      | Ok numMedia_s => collect req_body (parseInt numMedia_s)
      | Throw e => Throw e
      | Hang => Hang
      end
  | Throw e => Throw e
  | Hang => Hang
  end.

(** A body the handler gets through up to its loop without an exception:
    an object (or any value with properties) whose [From], [To] and
    [NumMedia] convert to strings.  Form posts, whose fields are all
    strings, are of this kind. *)
Definition ready (req_body : value) : bool :=
  negb (nullish req_body)
  && printable (field req_body "From")
  && printable (field req_body "To")
  && printable (field req_body "NumMedia").

(** The attachment count the handler computes at line 65, for a body whose
    [NumMedia] converts to a string. *)
Definition count_of (req_body : value) : number :=
  match to_string (default (field req_body "NumMedia") (JStr "0")) with
  | Some numMedia_s => parseInt numMedia_s
  | None => NaN
  end.

(** A count the loop counter reaches: not above 2^53. *)
Definition bounded (req_body : value) : bool :=
  negb (runs_forever (count_of req_body)).

(** A well-formed inbound request to [POST /twilio-webhook]: the body was
    parsed, sender, recipient and count convert to strings, and the count
    is one the loop of line 67 reaches. *)
Definition well_formed (req : request) : bool :=
  method_eqb (req_method req) POST
  && matches "/twilio-webhook" (req_path req)
  && match req_parsed req with
     | Parsed body => ready body && bounded body
     | Rejected _ => false
     end.

(** A webhook request whose handler stays in its loop: the body gets as
    far as the loop and the count is above 2^53. *)
Definition unending (req : request) : bool :=
  method_eqb (req_method req) POST
  && matches "/twilio-webhook" (req_path req)
  && match req_parsed req with
     | Parsed body => ready body && negb (bounded body)
     | Rejected _ => false
     end.

(** A path of one of the two endpoints. *)
Definition recognized (path : string) : bool :=
  matches "/health" path || matches "/twilio-webhook" path.

(** The keys [JSON.stringify] writes for an object: those whose value is
    not [undefined]. *)
Definition serialized_keys (o : list (string * value)) : list string :=
  map fst (filter (fun kv => negb (is_undefined (snd kv))) o).

(** A key as [JSON.stringify] keeps it: left out when its value is
    [undefined]. *)
Definition kept (k : string) (v : value) : list string :=
  if is_undefined v then [] else [k].



(** A string of [w] decimal digits. *)
Definition digits_only (w : nat) (s : string) : Prop :=
  String.length s = w /\ forallb is_digit (codes s) = true.

(** The ISO-8601 format of [toISOString]: [YYYY-MM-DDTHH:mm:ss.sssZ], the
    year being four digits or a sign and six digits. *)
Definition iso8601 (s : string) : Prop :=
  exists Y M D h m sec ms,
    s = Y ++ "-" ++ M ++ "-" ++ D ++ "T" ++ h ++ ":" ++ m ++ ":" ++ sec
          ++ "." ++ ms ++ "Z"
    /\ (digits_only 4 Y
        \/ exists Y', (Y = "+" ++ Y' \/ Y = "-" ++ Y') /\ digits_only 6 Y')
    /\ digits_only 2 M /\ digits_only 2 D /\ digits_only 2 h
    /\ digits_only 2 m /\ digits_only 2 sec /\ digits_only 3 ms.

(** What the debug logging middleware prints for a request, if enabled. *)
Definition debug_lines (cfg : config) (W : world) (req : request)
    (body : value) : list event :=
  if DEBUG_MODE cfg
  then [Log (DebugRequest (Date.toISOString (clock W AtDebugLog))
               (req_method req) (req_path req));
        Log (DebugHeaders (req_headers req));
        Log (DebugBody body)]
  else [].

(** The two acknowledgments of the webhook endpoint and the answers of the
    fallback route and of the error handler. *)
Definition ack : event := Respond 200 (Text twiml).
Definition error_ack : event := Respond 500 (Text twiml).

Definition not_found_body : content :=
  Json (JObj [("error", JStr "Route not found");
              ("availableRoutes",
               JArr [JStr "/health"; JStr "/twilio-webhook"])]).

Definition server_error_body (msg : string) : content :=
  Json (JObj [("error", JStr "Internal server error");
              ("message", JStr msg)]).

(** What serving a request leaves in the trace, by the way the request is
    routed. *)
Inductive served (cfg : config) (W : world) (req : request) :
    list event -> Prop :=
  | served_preflight :
      req_method req = OPTIONS ->
      served cfg W req [Respond 204 NoContent]
  | served_rejected err :
      req_parsed req = Rejected err ->
      served cfg W req
        [LogError (GlobalError err);
         Respond 500
           (server_error_body
              (if DEBUG_MODE cfg then message err
               else "Something went wrong"))]
  | served_health b :
      req_parsed req = Parsed b ->
      served cfg W req
        (debug_lines cfg W req b
         ++ [Respond 200
               (Json (JObj [("status", JStr "healthy");
                            ("timestamp",
                             JStr (Date.toISOString (clock W AtHealth)));
                            ("mainAppUrl", JStr (MAIN_APP_URL cfg))]))])
  | served_not_found b :
      req_parsed req = Parsed b ->
      served cfg W req (debug_lines cfg W req b ++ [Respond 404 not_found_body])
  | served_undecodable b :
      req_parsed req = Parsed b ->
      decodable (req_path req) = false ->
      served cfg W req
        (debug_lines cfg W req b
         ++ [LogError (GlobalError (URIError (req_path req)));
             Respond 500
               (server_error_body
                  (if DEBUG_MODE cfg then message (URIError (req_path req))
                   else "Something went wrong"))])
  | served_hung b from_s to_s :
      req_parsed req = Parsed b ->
      unending req = true ->
      served cfg W req
        (debug_lines cfg W req b ++ [Log (Received from_s to_s)])
  | served_forwarded b from_s to_s num_s mediaUrls logs :
      req_parsed req = Parsed b ->
      ready b = true ->
      to_string (field b "From") = Some from_s ->
      to_string (field b "To") = Some to_s ->
      to_string (default (field b "NumMedia") (JStr "0")) = Some num_s ->
      collect b (parseInt num_s) = Ok mediaUrls ->
      forallb is_log logs = true ->
      served cfg W req
        (debug_lines cfg W req b
         ++ [Log (Received from_s to_s); ack;
             Log (Forwarding (forward_url cfg));
             Forward
               (forward_call cfg
                  (payload (field b "From") (field b "To")
                     (default (field b "Body") (JStr "")) mediaUrls
                     (field b "MessageSid")
                     (Date.toISOString (clock W AtReceived))))]
         ++ logs)
  | served_crashed b pre e :
      req_parsed req = Parsed b ->
      ready b = false ->
      forallb is_log pre = true ->
      served cfg W req
        (debug_lines cfg W req b
         ++ pre ++ [LogError (WebhookError e); error_ack]).

End Props.

(* ================================================================== *)
(** ** Sample inputs *)
(* ================================================================== *)

Module Samples.
Import Js Http Server Props.

Definition cfg : config :=
  mkConfig (JNum default_port) "https://main.example" "anon-key" false.

Definition at_noon : site -> Z := fun _ => 1700000000000.

Definition reachable : world := mkWorld at_noon (Answers 200 (JObj [])).
Definition failing : world := mkWorld at_noon (Answers 503 (JStr "down")).
Definition stalled : world := mkWorld at_noon Silent.

Definition post (path : string) (body : value) : request :=
  mkRequest POST path [("content-type", "application/x-www-form-urlencoded")]
    (Parsed body).

(** The example of the specification: two attachments announced, the
    second one absent. *)
Definition sms : value :=
  JObj [("From", JStr "+1A"); ("To", JStr "+1B"); ("Body", JStr "hi");
        ("MessageSid", JStr "SM1"); ("NumMedia", JStr "2");
        ("MediaUrl0", JStr "http://x/1.jpg")].


(** The same message announcing no attachment. *)
Definition plain : value :=
  JObj [("From", JStr "+1A"); ("To", JStr "+1B"); ("Body", JStr "hi");
        ("MessageSid", JStr "SM1"); ("NumMedia", JStr "0");
        ("MediaUrl0", JStr "http://x/1.jpg");
        ("MediaUrl1", JStr "http://x/2.jpg")].


(** A JSON body whose sender cannot be converted to a string. *)
Definition hostile : value :=
  JObj [("From", JObj [("toString", JNum (mkSafe 1 eq_refl))]);
        ("To", JStr "+1B")].

(** A body without sender, recipient, identifier and text. *)
Definition anonymous : value := JObj [("NumMedia", JStr "0")].

(** A state in which a response has gone out already. *)
Definition answered : state := mkState [Respond 204 NoContent] true.

Definition bad_json : request :=
  mkRequest POST "/nonexistent" [("content-type", "application/json")]
    (Rejected (mkExn "Unexpected end of JSON input" None)).

Definition preflight : request :=
  mkRequest OPTIONS "/nonexistent" [] (Parsed (JObj [])).

Definition stray : request :=
  mkRequest GET "/nonexistent" [] (Parsed (JObj [])).

Definition env_ok : environment :=
  [("MAIN_APP_URL", "https://main.example"); ("SUPABASE_ANON_KEY", "anon-key")].

Definition env_no_key : environment :=
  [("MAIN_APP_URL", "https://main.example")].

Definition env_empty_url : environment :=
  [("MAIN_APP_URL", ""); ("SUPABASE_ANON_KEY", "anon-key")].

(** A message announcing 10^20 attachments, and one announcing 2^53 + 2,
    the least count above 2^53. *)
Definition endless : value :=
  JObj [("From", JStr "+1A"); ("To", JStr "+1B"); ("Body", JStr "hi");
        ("MessageSid", JStr "SM1");
        ("NumMedia", JStr "99999999999999999999")].

Definition overlong : value :=
  JObj [("From", JStr "+1A"); ("To", JStr "+1B");
        ("NumMedia", JStr "9007199254740994");
        ("MediaUrl0", JStr "http://x/1.jpg")].

(** A path with a malformed escape. *)
Definition malformed : request :=
  mkRequest GET "/%zz" [] (Parsed (JObj [])).

(** A platform on which every port can be listened on, and one on which
    the port is taken. *)
Definition free : platform := fun _ => None.

Definition taken : platform :=
  fun _ => Some (mkExn "listen EADDRINUSE: address already in use" None).

End Samples.

(* ================================================================== *)
(** ** The process and its signals *)
(* ================================================================== *)

Module Lifecycle.
Import Js Http Server.

Inductive signal : Type :=
  | SIGTERM
  | SIGINT.

Definition signal_name (sig : signal) : string :=
  match sig with
  | SIGTERM => "SIGTERM"
  | SIGINT => "SIGINT"
  end.

(** Graceful shutdown (lines 157-165): both handlers log and exit with
    code 0. *)
Definition shutdown (sig : signal) : list event :=
  [Log (Banner (signal_name sig ++ " received, shutting down gracefully"));
   Exit 0].

(** What reaches the running process: a request, with the world it meets,
    or a signal. *)
Inductive input : Type :=
  | Arrives (W : world) (req : request)
  | Signalled (sig : signal).

(** The listening application: requests are served one after the other
    until a signal ends the process; after a handler that never ends
    nothing runs any more, the signal handlers included. *)
Fixpoint live (cfg : config) (inputs : list input) : list event :=
  match inputs with
  | [] => []
  | Arrives W req :: rest =>
      (serve cfg W req
       ++ (if finishes cfg W req then live cfg rest else []))%list
  | Signalled sig :: _ => shutdown sig
  end.

(** The whole module: the check of the environment, the call of
    [app.listen], then the listening application with the signal handlers
    installed. *)
Definition process (env : environment) (os : platform)
    (inputs : list input) : list event :=
  match startup env os with
  | Exited events => events
  | Serving cfg events => (events ++ live cfg inputs)%list
  end.

End Lifecycle.

(* ================================================================== *)
(** ** Further vocabulary *)
(* ================================================================== *)

Module Views.
Import Js Http Server Props Lifecycle.

(** The console output of a trace. *)
Definition console (t : list event) : list event := filter is_log t.

(** The exit codes of a trace. *)
Definition exits (t : list event) : list Z :=
  flat_map (fun e => match e with Exit c => [c] | _ => [] end) t.

(** The lines that only the debug flag produces. *)
Definition is_debug_line (e : event) : bool :=
  match e with
  | Log (DebugRequest _ _ _) | Log (DebugHeaders _) | Log (DebugBody _)
  | Log (ForwardResponse _) => true
  | _ => false
  end.

(** The same configuration with another credential. *)
Definition with_key (cfg : config) (key : string) : config :=
  mkConfig (PORT cfg) (MAIN_APP_URL cfg) key (DEBUG_MODE cfg).

(** What the forward prints once the call has settled. *)
Definition outcome (cfg : config) (W : world) (startTime : Z) : list event :=
  let processingTime := clock W AtSettled - startTime in
  match main_app W with
  | Answers status data =>
      if (200 <=? status) && (status <? 300)
      then Log (Forwarded processingTime)
           :: (if DEBUG_MODE cfg then [Log (ForwardResponse data)] else [])
      else [LogError (ForwardFailed processingTime
                        ("Request failed with status code " ++ dec status));
            LogError (ResponseStatus status);
            LogError (ResponseData data)]
  | Unreachable msg => [LogError (ForwardFailed processingTime msg)]
  | Silent =>
      [LogError (ForwardFailed processingTime "timeout of 30000ms exceeded")]
  end.

(** What the webhook handler adds to the trace of a fresh response. *)
Definition handled (cfg : config) (W : world) (body : value) : list event :=
  trace (snd (twilio_webhook cfg W body init)).

(** The requests the process comes to handle: those that arrive before
    the first signal, up to the first whose handler never ends. *)
Fixpoint reached (cfg : config) (inputs : list input) :
    list (world * request) :=
  match inputs with
  | [] => []
  | Arrives W req :: rest =>
      (W, req) :: (if finishes cfg W req then reached cfg rest else [])
  | Signalled _ :: _ => []
  end.

(** A signal arrives, and every handler before it has ended. *)
Fixpoint signalled (cfg : config) (inputs : list input) : bool :=
  match inputs with
  | [] => false
  | Arrives W req :: rest => finishes cfg W req && signalled cfg rest
  | Signalled _ :: _ => true
  end.

(** A path without a percent sign. *)
Definition no_percent (path : string) : bool :=
  forallb (fun c => negb (c =? 37)%nat) (codes path).

(** The number a decimal numeral denotes, read from the left on top of
    [a]. *)
Fixpoint read (u : Decimal.uint) (a : Z) : Z :=
  match u with
  | Decimal.Nil => a
  | Decimal.D0 l => read l (10 * a)
  | Decimal.D1 l => read l (10 * a + 1)
  | Decimal.D2 l => read l (10 * a + 2)
  | Decimal.D3 l => read l (10 * a + 3)
  | Decimal.D4 l => read l (10 * a + 4)
  | Decimal.D5 l => read l (10 * a + 5)
  | Decimal.D6 l => read l (10 * a + 6)
  | Decimal.D7 l => read l (10 * a + 7)
  | Decimal.D8 l => read l (10 * a + 8)
  | Decimal.D9 l => read l (10 * a + 9)
  end.

(** The downstream application answered with a 2xx status. *)
Definition accepted (W : world) : bool :=
  match main_app W with
  | Answers status _ => (200 <=? status) && (status <? 300)
  | _ => false
  end.

Definition is_failure (e : event) : bool :=
  match e with LogError (ForwardFailed _ _) => true | _ => false end.

Definition is_success (e : event) : bool :=
  match e with Log (Forwarded _) => true | _ => false end.

(** A variable that is unset or empty. *)
Definition blank (env : environment) (name : string) : Prop :=
  getenv name env = None \/ getenv name env = Some "".

Definition filled (env : environment) (name : string) : Prop :=
  exists s, getenv name env = Some s /\ s <> "".

End Views.

Module MoreSamples.
Import Js Http Server Props Lifecycle.


Definition misdirected : request :=
  mkRequest GET "/twilio-webhook" [] (Parsed (JObj [])).

Definition bad_webhook : request :=
  mkRequest POST "/twilio-webhook" [("content-type", "application/json")]
    (Rejected (mkExn "Unexpected token } in JSON at position 7" None)).

Definition verbose : config :=
  mkConfig (JNum default_port) "https://main.example" "anon-key" true.

(** A count sent as a JSON number, and a negative one. *)
Definition counted : value :=
  JObj [("From", JStr "+1A"); ("NumMedia", JNum (mkSafe 2 eq_refl));
        ("MediaUrl0", JStr "http://x/1.jpg"); ("MediaUrl1", JStr "")].

Definition negative : value :=
  JObj [("NumMedia", JStr "-3"); ("MediaUrl0", JStr "http://x/1.jpg")].

Definition env_nothing : environment := [("PORT", "8080")].

Definition env_rotated : environment :=
  [("MAIN_APP_URL", "https://main.example"); ("SUPABASE_ANON_KEY", "other")].

End MoreSamples.

(* ================================================================== *)
(** ** Properties *)
(* ================================================================== *)

Import Js Http Server Props.

Ltac run_effects :=
  unfold console_log, console_error, emit, send, get_headersSent, when, ret,
    throw, bind;
  cbn [trace headersSent fst snd negb].

(** *** The coercions on examples *)

Example parseInt_examples :
  parseInt "2" = Int 2 /\ parseInt " 12abc" = Int 12
  /\ parseInt "-3" = Int (-3) /\ parseInt "3.7" = Int 3
  /\ parseInt "0x10" = Int 0 /\ parseInt "" = NaN
  /\ parseInt "abc" = NaN /\ parseInt "+" = NaN
  /\ parseInt "undefined" = NaN
  /\ parseInt "9007199254740993" = Int 9007199254740992
  /\ parseInt "99999999999999999999" = Int 100000000000000000000.
Proof. repeat split. Qed.

Example decodable_examples :
  decodable "/nonexistent" = true /\ decodable "/a%20b" = true
  /\ decodable "/%E2%82%AC" = true /\ decodable "/%zz" = false
  /\ decodable "/abc%" = false /\ decodable "/%C0%80" = false
  /\ decodable "/%E2%82" = false.
Proof. repeat split. Qed.

Example to_string_examples :
  to_string (JArr [JStr "2"; JNull;
                   JArr [JNum (mkSafe 3 eq_refl); JNum (mkSafe (-4) eq_refl)]])
  = Some "2,,3,-4"
  /\ to_string (JObj [("a", JNum default_port)]) = Some "[object Object]"
  /\ to_string (JObj [("toString", JStr "x")]) = None
  /\ to_string (JArr [JObj [("toString", JNull)]]) = None.
Proof. repeat split. Qed.

Example truthy_examples :
  truthy (JStr "") = false /\ truthy (JStr "0") = true
  /\ truthy (JNum (mkSafe 0 eq_refl)) = false /\ truthy (JArr []) = true
  /\ truthy JNull = false.
Proof. repeat split. Qed.

Example toISOString_examples :
  Date.toISOString 0 = "1970-01-01T00:00:00.000Z"
  /\ Date.toISOString 1700000000000 = "2023-11-14T22:13:20.000Z"
  /\ Date.toISOString 951782400000 = "2000-02-29T00:00:00.000Z"
  /\ Date.toISOString (-1) = "1969-12-31T23:59:59.999Z"
  /\ Date.toISOString 253402300800000 = "+010000-01-01T00:00:00.000Z".
Proof. repeat split. Qed.

Example matches_examples :
  matches "/health" "/health" = true
  /\ matches "/health" "/Health/" = true
  /\ matches "/health" "/healthz" = false
  /\ matches "/twilio-webhook" "/TWILIO-WEBHOOK" = true
  /\ matches "/twilio-webhook" "/twilio-webhook/x" = false.
Proof. repeat split. Qed.

(** *** Dates *)

Lemma length_append (a b : string) :
  String.length (a ++ b) = (String.length a + String.length b)%nat.
Proof. induction a as [|c a IH]; simpl; [reflexivity | now rewrite IH]. Qed.

Lemma codes_append (a b : string) :
  codes (a ++ b) = (codes a ++ codes b)%list.
Proof.
  unfold codes. induction a as [|c a IH]; simpl; [reflexivity|].
  now rewrite IH.
Qed.

Lemma digit_is_digit (n : Z) : is_digit (nat_of_ascii (Date.digit n)) = true.
Proof.
  unfold Date.digit.
  assert (H : (Z.to_nat (n mod 10) < 10)%nat)
    by (pose proof (Z.mod_pos_bound n 10); lia).
  destruct (Z.to_nat (n mod 10)) as [|k]; [reflexivity|].
  do 9 (destruct k as [|k]; [reflexivity|]). lia.
Qed.

Lemma pad_digits (w : nat) (n : Z) : digits_only w (Date.pad w n).
Proof.
  revert n. induction w as [|w IH]; intros n; [split; reflexivity|].
  destruct (IH (n / 10)) as [Hlen Hdig]. cbn [Date.pad]. split.
  - rewrite length_append, Hlen. cbn [String.length]. lia.
  - rewrite codes_append, forallb_app, Hdig.
    change (codes (String (Date.digit n) ""))
      with [nat_of_ascii (Date.digit n)].
    cbn [forallb andb]. now rewrite digit_is_digit.
Qed.

(** [toISOString] produces the ISO-8601 format, for every instant. *)
Lemma toISOString_iso8601 (t : Z) : iso8601 (Date.toISOString t).
Proof.
  unfold Date.toISOString.
  destruct (Date.civil (t / 86400000)) as [[y m] d].
  set (ms := t mod 86400000).
  exists (if (0 <=? y) && (y <=? 9999) then Date.pad 4 y
          else (if y <? 0 then "-" else "+") ++ Date.pad 6 (Z.abs y)),
    (Date.pad 2 m), (Date.pad 2 d), (Date.pad 2 (ms / 3600000)),
    (Date.pad 2 (ms / 60000 mod 60)), (Date.pad 2 (ms / 1000 mod 60)),
    (Date.pad 3 (ms mod 1000)).
  split; [reflexivity|].
  split.
  - destruct ((0 <=? y) && (y <=? 9999)).
    + left. apply pad_digits.
    + right. exists (Date.pad 6 (Z.abs y)). split; [|apply pad_digits].
      destruct (y <? 0); auto.
  - split; [apply pad_digits|]. split; [apply pad_digits|].
    split; [apply pad_digits|]. split; [apply pad_digits|].
    split; apply pad_digits.
Qed.

(** *** Reading the request body *)

Lemma get_field (b : value) (k : string) :
  nullish b = false -> get b k = Ok (field b k).
Proof.
  unfold field; destruct b; simpl; intros H; try discriminate; reflexivity.
Qed.

Lemma field_obj (props : list (string * value)) (k : string) :
  field (JObj props) k =
  match assoc k props with Some v => v | None => JUndefined end.
Proof. reflexivity. Qed.


Lemma printable_default (v : value) :
  printable (default v (JStr "0")) = printable v.
Proof. destruct v; reflexivity. Qed.

Lemma printable_some (v : value) :
  printable v = true -> exists s, to_string v = Some s.
Proof.
  unfold printable; destruct (to_string v) as [s|]; intros H;
    [exists s; reflexivity | discriminate].
Qed.

(** *** The attachment loop *)

Lemma less_than_nat (k N : nat) :
  less_than (Z.of_nat k) (Int (Z.of_nat N)) = (k <? N)%nat.
Proof.
  simpl. destruct (Nat.ltb_spec k N); [apply Z.ltb_lt | apply Z.ltb_ge]; lia.
Qed.

Lemma incr_nat (k : nat) :
  Z.of_nat k < max_safe -> incr (Z.of_nat k) = Z.of_nat (S k).
Proof.
  intros H. unfold incr.
  replace (Z.of_nat k <? max_safe) with true
    by (symmetry; now apply Z.ltb_lt).
  lia.
Qed.

(** For a count the counter reaches, the loop started at index [k]
    appends the truthy fields of the indices from [k] up to the count, in
    order, once it has fuel for them. *)
Lemma media_loop_spec (b : value) (N : nat) :
  nullish b = false ->
  Z.of_nat N <= max_safe ->
  forall (fuel k : nat) (acc : list value),
    (N - k <= fuel)%nat ->
    media_loop b (Int (Z.of_nat N)) fuel (Z.of_nat k) acc =
    Ok (acc ++ filter truthy
                 (map (fun i => field b (MediaUrl i))
                    (seq k (N - k))))%list.
Proof.
  intros Hb HN fuel; induction fuel as [|fuel IH]; intros k acc Hfuel.
  - cbn [media_loop]. rewrite less_than_nat.
    replace (k <? N)%nat with false by (symmetry; apply Nat.ltb_ge; lia).
    replace (N - k)%nat with O by lia. simpl. now rewrite app_nil_r.
  - cbn [media_loop]. rewrite less_than_nat.
    destruct (Nat.ltb_spec k N) as [Hlt|Hge].
    + rewrite (get_field b _ Hb), incr_nat by lia.
      rewrite IH by lia.
      replace (N - k)%nat with (S (N - S k)) by lia.
      cbn [seq map filter]. fold (MediaUrl k).
      destruct (truthy (field b (MediaUrl k)));
        [rewrite <- app_assoc|]; reflexivity.
    + replace (N - k)%nat with O by lia.
      simpl. now rewrite app_nil_r.
Qed.

(** The attachment list for a count [N] up to 2^53. *)
Lemma collect_count (b : value) (N : nat) :
  nullish b = false ->
  Z.of_nat N <= max_safe ->
  collect b (Int (Z.of_nat N)) =
  Ok (filter truthy (map (fun i => field b (MediaUrl i)) (seq 0 N))).
Proof.
  intros Hb HN. unfold collect, iterations, runs_forever.
  replace (max_safe <? Z.of_nat N) with false
    by (symmetry; now apply Z.ltb_ge).
  rewrite Nat2Z.id.
  change 0 with (Z.of_nat 0).
  rewrite (media_loop_spec b N Hb HN N 0%nat []) by lia.
  now rewrite Nat.sub_0_r.
Qed.

Lemma collect_NaN (b : value) : collect b NaN = Ok [].
Proof. reflexivity. Qed.

Lemma collect_negative (b : value) (n : Z) :
  n <= 0 -> collect b (Int n) = Ok [].
Proof.
  intros Hn. unfold collect, iterations, runs_forever.
  replace (max_safe <? n) with false
    by (symmetry; apply Z.ltb_ge; unfold max_safe; lia).
  replace (Z.to_nat n) with O by lia. cbn [media_loop less_than].
  now replace (0 <? n) with false by (symmetry; apply Z.ltb_ge; lia).
Qed.

(** Above 2^53 the loop does not end, however many iterations it is
    given: the counter stays at or below 2^53 and the test holds. *)
Lemma media_loop_hangs (b : value) (mediaCount : number) :
  nullish b = false ->
  runs_forever mediaCount = true ->
  forall (fuel : nat) (i : Z) (acc : list value),
    0 <= i <= max_safe ->
    media_loop b mediaCount fuel i acc = Hang.
Proof.
  intros Hb Hc.
  assert (Htest : forall i, 0 <= i <= max_safe ->
                            less_than i mediaCount = true).
  { intros i Hi. destruct mediaCount as [|n|neg]; cbn in *;
      [discriminate | | assumption].
    apply Z.ltb_lt in Hc. apply Z.ltb_lt. lia. }
  induction fuel as [|fuel IH]; intros i acc Hi; cbn [media_loop];
    rewrite (Htest i Hi); [reflexivity|].
  rewrite (get_field b _ Hb). apply IH.
  unfold incr. destruct (Z.ltb_spec i max_safe); lia.
Qed.

Lemma collect_hangs (b : value) (mediaCount : number) :
  nullish b = false ->
  runs_forever mediaCount = true ->
  collect b mediaCount = Hang.
Proof.
  intros Hb Hc. unfold collect.
  apply media_loop_hangs; [assumption | assumption | unfold max_safe; lia].
Qed.

(** Up to 2^53 the loop ends with a list when the body has properties. *)
Lemma collect_total (b : value) (mediaCount : number) :
  nullish b = false ->
  runs_forever mediaCount = false ->
  exists l, collect b mediaCount = Ok l.
Proof.
  intros Hb Hc. destruct mediaCount as [|n|neg].
  - exists []. reflexivity.
  - destruct (Z.le_gt_cases n 0) as [Hn|Hn].
    + exists []. now apply collect_negative.
    + exists (filter truthy
                (map (fun i => field b (MediaUrl i)) (seq 0 (Z.to_nat n)))).
      cbn in Hc. apply Z.ltb_ge in Hc.
      rewrite <- (Z2Nat.id n) at 1 by lia.
      apply collect_count; [assumption | lia].
  - destruct neg; [|discriminate]. exists []. reflexivity.
Qed.

(** The fuel of [collect] decides the loop: with as much fuel or more the
    outcome is the same, a list when the loop ends and [Hang] when it does
    not. *)
Lemma media_loop_enough (b : value) (mediaCount : number) (fuel : nat) :
  nullish b = false ->
  ((if runs_forever mediaCount then 1 else iterations mediaCount) <= fuel)%nat ->
  media_loop b mediaCount fuel 0 [] = collect b mediaCount.
Proof.
  intros Hb Hfuel. destruct (runs_forever mediaCount) eqn:Hc.
  - rewrite (collect_hangs b _ Hb Hc).
    apply media_loop_hangs; [assumption | assumption | unfold max_safe; lia].
  - destruct mediaCount as [|n|neg].
    + destruct fuel; reflexivity.
    + destruct (Z.le_gt_cases n 0) as [Hn|Hn].
      * rewrite collect_negative by assumption.
        destruct fuel; cbn [media_loop less_than];
          now replace (0 <? n) with false by (symmetry; apply Z.ltb_ge; lia).
      * cbn in Hc, Hfuel. apply Z.ltb_ge in Hc.
        rewrite <- (Z2Nat.id n) by lia.
        rewrite collect_count by (try assumption; lia).
        change 0 with (Z.of_nat 0).
        rewrite media_loop_spec by (try assumption; lia).
        now rewrite Nat.sub_0_r.
    + destruct neg; [|discriminate]. destruct fuel; reflexivity.
Qed.

(** *** Projections of a trace *)

Lemma responses_app (t u : list event) :
  responses (t ++ u) = (responses t ++ responses u)%list.
Proof. apply flat_map_app. Qed.

Lemma forwards_app (t u : list event) :
  forwards (t ++ u) = (forwards t ++ forwards u)%list.
Proof. apply flat_map_app. Qed.

Lemma visible_app (t u : list event) :
  visible (t ++ u) = (visible t ++ visible u)%list.
Proof. apply filter_app. Qed.

Lemma responses_logs (t : list event) :
  forallb is_log t = true -> responses t = [].
Proof.
  induction t as [|e t IH]; [reflexivity|].
  simpl. intros H. apply andb_prop in H as [He Ht].
  destruct e; try discriminate; simpl; auto.
Qed.

Lemma forwards_logs (t : list event) :
  forallb is_log t = true -> forwards t = [].
Proof.
  induction t as [|e t IH]; [reflexivity|].
  simpl. intros H. apply andb_prop in H as [He Ht].
  destruct e; try discriminate; simpl; auto.
Qed.

Lemma visible_logs (t : list event) :
  forallb is_log t = true -> visible t = [].
Proof.
  induction t as [|e t IH]; [reflexivity|].
  simpl. intros H. apply andb_prop in H as [He Ht].
  unfold visible in *. simpl. rewrite He. simpl. auto.
Qed.

Lemma logs_not_in (t : list event) (e : event) :
  forallb is_log t = true -> is_log e = false -> ~ In e t.
Proof.
  intros Ht He Hin.
  rewrite forallb_forall in Ht. specialize (Ht e Hin). congruence.
Qed.

Lemma debug_lines_logs (cfg : config) (W : world) (req : request)
    (b : value) :
  forallb is_log (debug_lines cfg W req b) = true.
Proof. unfold debug_lines; destruct (DEBUG_MODE cfg); reflexivity. Qed.

(** *** The webhook handler, run *)

(** The forward never throws: it adds the call and then console output. *)
Lemma forward_run (cfg : config) (W : world) (startTime : Z)
    (data : list (string * value)) (s : state) :
  exists logs,
    forallb is_log logs = true /\
    forward cfg W startTime data s =
    (Ok tt,
     mkState (trace s ++ Forward (forward_call cfg data) :: logs)
       (headersSent s)).
Proof.
  unfold forward, try_catch, axios_post.
  destruct (main_app W) as [status d|msg|].
  - destruct ((200 <=? status) && (status <? 300)).
    + destruct (DEBUG_MODE cfg).
      * exists [Log (Forwarded (clock W AtSettled - startTime));
                Log (ForwardResponse d)].
        split; [reflexivity|]. run_effects.
        cbn. rewrite <- !app_assoc. reflexivity.
      * exists [Log (Forwarded (clock W AtSettled - startTime))].
        split; [reflexivity|]. run_effects.
        cbn. rewrite <- !app_assoc. reflexivity.
    + exists [LogError (ForwardFailed (clock W AtSettled - startTime)
                          ("Request failed with status code " ++ dec status));
              LogError (ResponseStatus status); LogError (ResponseData d)].
      split; [reflexivity|]. run_effects.
      cbn. rewrite <- !app_assoc. reflexivity.
  - exists [LogError (ForwardFailed (clock W AtSettled - startTime) msg)].
    split; [reflexivity|]. run_effects.
    cbn. rewrite <- !app_assoc. reflexivity.
  - exists [LogError (ForwardFailed (clock W AtSettled - startTime)
                        ("timeout of " ++ dec 30000 ++ "ms exceeded"))].
    split; [reflexivity|]. run_effects.
    cbn. rewrite <- !app_assoc. reflexivity.
Qed.

(** The [catch] block answers only when nothing was sent. *)
Lemma webhook_catch_run (e : exn) (s : state) :
  webhook_catch e s =
  (Ok tt,
   mkState (trace s ++ LogError (WebhookError e)
              :: (if headersSent s then [] else [error_ack])) true).
Proof.
  unfold webhook_catch. run_effects.
  destruct (headersSent s) eqn:Hs; cbn.
  - reflexivity.
  - rewrite <- app_assoc. reflexivity.
Qed.

(** The count of a body whose [NumMedia] prints as [num_s]. *)
Lemma count_of_printed (b : value) (num_s : string) :
  to_string (default (field b "NumMedia") (JStr "0")) = Some num_s ->
  count_of b = parseInt num_s.
Proof. unfold count_of. now intros ->. Qed.

(** A body that is [ready] with a count the loop reaches gets through:
    acknowledgment, then forward. *)
Lemma webhook_ready (cfg : config) (W : world) (b : value) (s : state) :
  headersSent s = false ->
  ready b = true ->
  bounded b = true ->
  exists from_s to_s num_s mediaUrls logs,
    to_string (field b "From") = Some from_s /\
    to_string (field b "To") = Some to_s /\
    to_string (default (field b "NumMedia") (JStr "0")) = Some num_s /\
    collect b (parseInt num_s) = Ok mediaUrls /\
    forallb is_log logs = true /\
    twilio_webhook cfg W b s =
    (Ok tt,
     mkState
       (trace s
        ++ [Log (Received from_s to_s); ack;
            Log (Forwarding (forward_url cfg));
            Forward
              (forward_call cfg
                 (payload (field b "From") (field b "To")
                    (default (field b "Body") (JStr "")) mediaUrls
                    (field b "MessageSid")
                    (Date.toISOString (clock W AtReceived))))]
        ++ logs) true).
Proof.
  intros Hs Hr Hbd. unfold ready in Hr.
  apply andb_prop in Hr as [Hr Hnum]. apply andb_prop in Hr as [Hr Hto].
  apply andb_prop in Hr as [Hb Hfrom]. apply negb_true_iff in Hb.
  rewrite <- printable_default in Hnum.
  apply printable_some in Hfrom as [from_s Hfrom].
  apply printable_some in Hto as [to_s Hto].
  apply printable_some in Hnum as [num_s Hnum].
  unfold bounded in Hbd. rewrite (count_of_printed b num_s Hnum) in Hbd.
  apply negb_true_iff in Hbd.
  destruct (collect_total b (parseInt num_s) Hb Hbd) as [mediaUrls Hc].
  exists from_s, to_s, num_s, mediaUrls.
  unfold twilio_webhook, webhook_try, try_catch.
  unfold bind, lift, ToString.
  rewrite !(get_field b _ Hb). rewrite Hfrom, Hto, Hnum, Hc.
  unfold console_log, emit, send. cbn [trace headersSent]. rewrite Hs.
  match goal with
  | |- context [forward ?c ?w ?t ?d ?st] =>
      destruct (forward_run c w t d st) as (logs & Hlogs & ->)
  end.
  exists logs. repeat split; try assumption.
  cbn [trace headersSent]. unfold ack. rewrite <- !app_assoc. reflexivity.
Qed.

Lemma printable_none (v : value) :
  printable v = false -> to_string v = None.
Proof.
  unfold printable; destruct (to_string v); [discriminate|reflexivity].
Qed.

Lemma state_eta (s : state) :
  headersSent s = false -> mkState (trace s) false = s.
Proof. destruct s; simpl; intros ->; reflexivity. Qed.

(** A body that is not [ready] makes the [try] block throw before anything
    is sent. *)
Lemma webhook_try_unready (cfg : config) (W : world) (b : value) (s : state) :
  headersSent s = false ->
  ready b = false ->
  exists pre e,
    forallb is_log pre = true /\
    webhook_try cfg W b s = (Throw e, mkState (trace s ++ pre) false).
Proof.
  intros Hs Hr. unfold webhook_try, bind, lift, ToString.
  destruct (nullish b) eqn:Hb.
  - exists [], (TypeError
                  ("Cannot read properties of undefined or null: " ++ "From")).
    split; [reflexivity|]. rewrite app_nil_r, (state_eta s Hs).
    destruct b; try discriminate; reflexivity.
  - rewrite !(get_field b _ Hb).
    unfold ready in Hr. rewrite Hb in Hr. cbn [negb andb] in Hr.
    destruct (printable (field b "From")) eqn:Hfrom.
    + apply printable_some in Hfrom as [from_s ->].
      destruct (printable (field b "To")) eqn:Hto.
      * apply printable_some in Hto as [to_s ->].
        cbn [andb] in Hr. rewrite <- printable_default in Hr.
        rewrite (printable_none _ Hr).
        exists [Log (Received from_s to_s)], 
          (TypeError "Cannot convert object to primitive value").
        split; [reflexivity|]. unfold console_log, emit.
        cbn [trace headersSent]. rewrite Hs. reflexivity.
      * rewrite (printable_none _ Hto).
        exists [], (TypeError "Cannot convert object to primitive value").
        split; [reflexivity|]. now rewrite app_nil_r, (state_eta s Hs).
    + rewrite (printable_none _ Hfrom).
      exists [], (TypeError "Cannot convert object to primitive value").
      split; [reflexivity|]. now rewrite app_nil_r, (state_eta s Hs).
Qed.

Lemma webhook_unready (cfg : config) (W : world) (b : value) (s : state) :
  headersSent s = false ->
  ready b = false ->
  exists pre e,
    forallb is_log pre = true /\
    twilio_webhook cfg W b s =
    (Ok tt,
     mkState (trace s ++ pre ++ [LogError (WebhookError e); error_ack]) true).
Proof.
  intros Hs Hr.
  destruct (webhook_try_unready cfg W b s Hs Hr) as (pre & e & Hpre & Htry).
  exists pre, e. split; [assumption|].
  unfold twilio_webhook, try_catch. rewrite Htry, webhook_catch_run.
  cbn [trace headersSent]. now rewrite <- app_assoc.
Qed.

(** A body that is [ready] with a count above 2^53 keeps the handler in
    its loop: the line of line 61 is printed, and nothing follows. *)
Lemma webhook_hung (cfg : config) (W : world) (b : value) (s : state) :
  ready b = true ->
  bounded b = false ->
  exists from_s to_s,
    to_string (field b "From") = Some from_s /\
    to_string (field b "To") = Some to_s /\
    twilio_webhook cfg W b s =
    (Hang,
     mkState (trace s ++ [Log (Received from_s to_s)]) (headersSent s)).
Proof.
  intros Hr Hbd. unfold ready in Hr.
  apply andb_prop in Hr as [Hr Hnum]. apply andb_prop in Hr as [Hr Hto].
  apply andb_prop in Hr as [Hb Hfrom]. apply negb_true_iff in Hb.
  rewrite <- printable_default in Hnum.
  apply printable_some in Hfrom as [from_s Hfrom].
  apply printable_some in Hto as [to_s Hto].
  apply printable_some in Hnum as [num_s Hnum].
  unfold bounded in Hbd. rewrite (count_of_printed b num_s Hnum) in Hbd.
  apply negb_false_iff in Hbd.
  exists from_s, to_s. split; [assumption|]. split; [assumption|].
  unfold twilio_webhook, webhook_try, try_catch.
  unfold bind, lift, ToString.
  rewrite !(get_field b _ Hb). rewrite Hfrom, Hto, Hnum.
  rewrite (collect_hangs b _ Hb Hbd).
  unfold console_log, emit. reflexivity.
Qed.

(** Whatever the body and the world, nothing is thrown out of the
    handler: it returns, or it stays in its loop. *)
Lemma webhook_returns (cfg : config) (W : world) (b : value) (s : state) :
  headersSent s = false ->
  fst (twilio_webhook cfg W b s)
  = if ready b && negb (bounded b) then Hang else Ok tt.
Proof.
  intros Hs. destruct (ready b) eqn:Hr.
  - destruct (bounded b) eqn:Hbd; cbn [andb negb].
    + destruct (webhook_ready cfg W b s Hs Hr Hbd)
        as (? & ? & ? & ? & ? & _ & _ & _ & _ & _ & ->). reflexivity.
    + destruct (webhook_hung cfg W b s Hr Hbd) as (? & ? & _ & _ & ->).
      reflexivity.
  - destruct (webhook_unready cfg W b s Hs Hr) as (? & ? & _ & ->).
    reflexivity.
Qed.

(** *** The application, run *)

Lemma debug_run (cfg : config) (W : world) (req : request) (b : value) :
  when (DEBUG_MODE cfg) (debug_logger W req b) init =
  (Ok tt, mkState (debug_lines cfg W req b) false).
Proof.
  unfold when, debug_lines, debug_logger.
  destruct (DEBUG_MODE cfg); reflexivity.
Qed.

Lemma serve_preflight (cfg : config) (W : world) (req : request) :
  req_method req = OPTIONS ->
  serve cfg W req = [Respond 204 NoContent] /\ completes cfg W req = true.
Proof.
  intros Hm. unfold serve, completes, app. rewrite Hm. split; reflexivity.
Qed.

Lemma serve_rejected (cfg : config) (W : world) (req : request) (err : exn) :
  req_method req <> OPTIONS ->
  req_parsed req = Rejected err ->
  serve cfg W req =
    [LogError (GlobalError err);
     Respond 500
       (server_error_body
          (if DEBUG_MODE cfg then message err else "Something went wrong"))]
  /\ completes cfg W req = true.
Proof.
  intros Hm Hp. unfold serve, completes, app. rewrite Hp.
  destruct (req_method req); try contradiction; split; reflexivity.
Qed.

Lemma serve_health (cfg : config) (W : world) (req : request) (b : value) :
  req_parsed req = Parsed b ->
  is_get (req_method req) && matches "/health" (req_path req) = true ->
  serve cfg W req =
    (debug_lines cfg W req b
     ++ [Respond 200
           (Json (JObj [("status", JStr "healthy");
                        ("timestamp",
                         JStr (Date.toISOString (clock W AtHealth)));
                        ("mainAppUrl", JStr (MAIN_APP_URL cfg))]))])%list
  /\ completes cfg W req = true.
Proof.
  intros Hp Hr. unfold serve, completes, app. rewrite Hp.
  assert (Hm : method_eqb (req_method req) OPTIONS = false).
  { apply andb_prop in Hr as [Hg _]. destruct (req_method req);
      try discriminate; reflexivity. }
  rewrite Hm. unfold bind. rewrite debug_run, Hr.
  split; reflexivity.
Qed.

Lemma serve_not_found (cfg : config) (W : world) (req : request) (b : value) :
  req_method req <> OPTIONS ->
  req_parsed req = Parsed b ->
  is_get (req_method req) && matches "/health" (req_path req) = false ->
  method_eqb (req_method req) POST
    && matches "/twilio-webhook" (req_path req) = false ->
  decodable (req_path req) = true ->
  serve cfg W req =
    (debug_lines cfg W req b ++ [Respond 404 not_found_body])%list
  /\ completes cfg W req = true.
Proof.
  intros Hm Hp Hh Hw Hd. unfold serve, completes, app. rewrite Hp.
  assert (Ho : method_eqb (req_method req) OPTIONS = false)
    by (destruct (req_method req); try contradiction; reflexivity).
  rewrite Ho. unfold bind. rewrite debug_run, Hh, Hw, Hd.
  split; reflexivity.
Qed.

Lemma serve_undecodable (cfg : config) (W : world) (req : request)
    (b : value) :
  req_method req <> OPTIONS ->
  req_parsed req = Parsed b ->
  is_get (req_method req) && matches "/health" (req_path req) = false ->
  method_eqb (req_method req) POST
    && matches "/twilio-webhook" (req_path req) = false ->
  decodable (req_path req) = false ->
  serve cfg W req =
    (debug_lines cfg W req b
     ++ [LogError (GlobalError (URIError (req_path req)));
         Respond 500
           (server_error_body
              (if DEBUG_MODE cfg then message (URIError (req_path req))
               else "Something went wrong"))])%list
  /\ completes cfg W req = true.
Proof.
  intros Hm Hp Hh Hw Hd. unfold serve, completes, app. rewrite Hp.
  assert (Ho : method_eqb (req_method req) OPTIONS = false)
    by (destruct (req_method req); try contradiction; reflexivity).
  rewrite Ho. unfold bind. rewrite debug_run, Hh, Hw, Hd.
  split; [|reflexivity].
  unfold error_handler, bind, console_error, send, emit.
  cbn [fst snd trace headersSent]. now rewrite <- app_assoc.
Qed.

Lemma serve_webhook (cfg : config) (W : world) (req : request) (b : value) :
  req_parsed req = Parsed b ->
  method_eqb (req_method req) POST
    && matches "/twilio-webhook" (req_path req) = true ->
  app cfg W req init =
  async (twilio_webhook cfg W b) (mkState (debug_lines cfg W req b) false).
Proof.
  intros Hp Hw. unfold app. rewrite Hp.
  assert (Hm : req_method req = POST).
  { apply andb_prop in Hw as [Hg _]. destruct (req_method req);
      try discriminate; reflexivity. }
  rewrite Hm in *. cbn [method_eqb is_get andb]. cbn [method_eqb andb] in Hw.
  rewrite Hw. unfold bind. rewrite debug_run. reflexivity.
Qed.

Lemma serve_ready (cfg : config) (W : world) (req : request) (b : value) :
  req_parsed req = Parsed b ->
  method_eqb (req_method req) POST
    && matches "/twilio-webhook" (req_path req) = true ->
  ready b = true ->
  bounded b = true ->
  exists from_s to_s num_s mediaUrls logs,
    to_string (field b "From") = Some from_s /\
    to_string (field b "To") = Some to_s /\
    to_string (default (field b "NumMedia") (JStr "0")) = Some num_s /\
    collect b (parseInt num_s) = Ok mediaUrls /\
    forallb is_log logs = true /\
    serve cfg W req =
      (debug_lines cfg W req b
       ++ [Log (Received from_s to_s); ack;
           Log (Forwarding (forward_url cfg));
           Forward
             (forward_call cfg
                (payload (field b "From") (field b "To")
                   (default (field b "Body") (JStr "")) mediaUrls
                   (field b "MessageSid")
                   (Date.toISOString (clock W AtReceived))))]
       ++ logs)%list /\
    completes cfg W req = true.
Proof.
  intros Hp Hw Hr Hbd. unfold serve, completes.
  rewrite (serve_webhook cfg W req b Hp Hw).
  destruct (webhook_ready cfg W b (mkState (debug_lines cfg W req b) false)
              eq_refl Hr Hbd)
    as (from_s & to_s & num_s & mediaUrls & logs & H1 & H2 & H3 & H4 & H5 & H6).
  exists from_s, to_s, num_s, mediaUrls, logs.
  unfold async, try_catch. rewrite H6. cbn [fst snd trace]. auto 10.
Qed.

Lemma serve_unready (cfg : config) (W : world) (req : request) (b : value) :
  req_parsed req = Parsed b ->
  method_eqb (req_method req) POST
    && matches "/twilio-webhook" (req_path req) = true ->
  ready b = false ->
  exists pre e,
    forallb is_log pre = true /\
    serve cfg W req =
      (debug_lines cfg W req b
       ++ pre ++ [LogError (WebhookError e); error_ack])%list /\
    completes cfg W req = true.
Proof.
  intros Hp Hw Hr. unfold serve, completes.
  rewrite (serve_webhook cfg W req b Hp Hw).
  destruct (webhook_unready cfg W b (mkState (debug_lines cfg W req b) false)
              eq_refl Hr) as (pre & e & Hpre & Hrun).
  exists pre, e. unfold async, try_catch. rewrite Hrun.
  cbn [fst snd trace]. auto.
Qed.

Lemma serve_hung (cfg : config) (W : world) (req : request) (b : value) :
  req_parsed req = Parsed b ->
  method_eqb (req_method req) POST
    && matches "/twilio-webhook" (req_path req) = true ->
  ready b = true ->
  bounded b = false ->
  exists from_s to_s,
    serve cfg W req
    = (debug_lines cfg W req b ++ [Log (Received from_s to_s)])%list
    /\ fst (app cfg W req init) = Hang.
Proof.
  intros Hp Hw Hr Hbd. unfold serve.
  rewrite (serve_webhook cfg W req b Hp Hw).
  destruct (webhook_hung cfg W b (mkState (debug_lines cfg W req b) false)
              Hr Hbd) as (from_s & to_s & _ & _ & Hrun).
  exists from_s, to_s. unfold async, try_catch. rewrite Hrun.
  split; reflexivity.
Qed.

(** Every request is served in one of the eight ways of [served].  No
    exception reaches the top: the request is served to the end, or it is
    a webhook request whose count keeps the handler in its loop. *)
Lemma serve_cases (cfg : config) (W : world) (req : request) :
  served cfg W req (serve cfg W req)
  /\ (completes cfg W req = true
      \/ fst (app cfg W req init) = Hang
         /\ method_eqb (req_method req) POST
            && matches "/twilio-webhook" (req_path req) = true
         /\ exists b, req_parsed req = Parsed b
                      /\ ready b = true /\ bounded b = false).
Proof.
  destruct (method_eqb (req_method req) OPTIONS) eqn:Ho.
  - assert (Hm : req_method req = OPTIONS)
      by (destruct (req_method req); try discriminate; reflexivity).
    destruct (serve_preflight cfg W req Hm) as [-> ->].
    split; [now apply served_preflight | now left].
  - assert (Hm : req_method req <> OPTIONS)
      by (intros E; rewrite E in Ho; discriminate).
    destruct (req_parsed req) as [b|err] eqn:Hp.
    + destruct (is_get (req_method req) && matches "/health" (req_path req))
        eqn:Hh.
      * destruct (serve_health cfg W req b Hp Hh) as [-> ->].
        split; [now apply served_health | now left].
      * destruct (method_eqb (req_method req) POST
                  && matches "/twilio-webhook" (req_path req)) eqn:Hw.
        -- destruct (ready b) eqn:Hr.
           ++ destruct (bounded b) eqn:Hbd.
              ** destruct (serve_ready cfg W req b Hp Hw Hr Hbd)
                   as (from_s & to_s & num_s & mediaUrls & logs
                       & H1 & H2 & H3 & H4 & H5 & -> & ->).
                 split; [now apply served_forwarded with (num_s := num_s)
                        | now left].
              ** destruct (serve_hung cfg W req b Hp Hw Hr Hbd)
                   as (from_s & to_s & -> & Hhang).
                 split.
                 { apply served_hung; [assumption|].
                   unfold unending. now rewrite Hw, Hp, Hr, Hbd. }
                 right. split; [assumption|]. split; [reflexivity|].
                 now exists b.
           ++ destruct (serve_unready cfg W req b Hp Hw Hr)
                as (pre & e & Hpre & -> & ->).
              split; [now apply served_crashed | now left].
        -- destruct (decodable (req_path req)) eqn:Hd.
           ++ destruct (serve_not_found cfg W req b Hm Hp Hh Hw Hd)
                as [-> ->].
              split; [now apply served_not_found | now left].
           ++ destruct (serve_undecodable cfg W req b Hm Hp Hh Hw Hd)
                as [-> ->].
              split; [now apply served_undecodable | now left].
    + destruct (serve_rejected cfg W req err Hm Hp) as [-> ->].
      split; [now apply served_rejected | now left].
Qed.

(** The three places where a request or the start-up leaves the usual
    course: a count of 10^20 keeps the handler in its loop before any
    response, a path with a malformed escape is answered by the error
    handler, and a port that cannot be listened on ends the process. *)
Example endless_unanswered :
  parseInt "99999999999999999999" = Int 100000000000000000000
  /\ serve Samples.cfg Samples.reachable
       (Samples.post "/twilio-webhook" Samples.endless)
     = [Log (Received "+1A" "+1B")]
  /\ finishes Samples.cfg Samples.reachable
       (Samples.post "/twilio-webhook" Samples.endless) = false.
Proof. repeat split. Qed.

Example malformed_path_error :
  serve Samples.cfg Samples.reachable Samples.malformed
  = [LogError (GlobalError (mkExn "Failed to decode param '/%zz'" None));
     Respond 500 (server_error_body "Something went wrong")].
Proof. reflexivity. Qed.

Example refused_port :
  run Samples.env_ok Samples.taken [(Samples.reachable, Samples.stray)]
  = [Uncaught (mkExn "listen EADDRINUSE: address already in use" None);
     Exit 1].
Proof. reflexivity. Qed.

(** Paths that match a route decode: they hold no percent sign. *)
Lemma lower_percent (c : ascii) :
  (nat_of_ascii (lower c) =? 37)%nat = (nat_of_ascii c =? 37)%nat.
Proof. destruct c as [[] [] [] [] [] [] [] []]; reflexivity. Qed.

Lemma no_percent_lowercase (path : string) :
  Views.no_percent (lowercase path) = Views.no_percent path.
Proof.
  unfold Views.no_percent, codes.
  induction path as [|c path IH]; [reflexivity|].
  cbn [lowercase list_ascii_of_string map forallb].
  now rewrite lower_percent, IH.
Qed.

Lemma decodes_plain (l : list nat) (lo hi : nat) :
  forallb (fun c => negb (c =? 37)%nat) l = true ->
  decodes l Plain 0 lo hi = true.
Proof.
  induction l as [|c l IH]; [reflexivity|].
  cbn [forallb decodes]. intros H. apply andb_prop in H as [Hc Hl].
  apply negb_true_iff in Hc. rewrite Hc. cbn. now apply IH.
Qed.

Lemma no_percent_decodable (path : string) :
  Views.no_percent path = true -> decodable path = true.
Proof. intros H. now apply decodes_plain. Qed.

Lemma matches_decodable (route path : string) :
  Views.no_percent route = true ->
  matches route path = true ->
  decodable path = true.
Proof.
  intros Hroute Hm. apply no_percent_decodable.
  rewrite <- no_percent_lowercase.
  unfold matches in Hm. apply orb_prop in Hm as [Hm|Hm];
    apply String.eqb_eq in Hm; rewrite Hm; [assumption|].
  unfold Views.no_percent in *. rewrite codes_append, forallb_app, Hroute.
  reflexivity.
Qed.

Lemma recognized_decodable (path : string) :
  recognized path = true -> decodable path = true.
Proof.
  unfold recognized. intros H. apply orb_prop in H as [H|H].
  - now apply (matches_decodable "/health").
  - now apply (matches_decodable "/twilio-webhook").
Qed.
(** *** Acknowledgment of the provider *)



(** *** The attachment list *)

Lemma attachments_collect (b : value) (s : string) :
  nullish b = false ->
  to_string (default (field b "NumMedia") (JStr "0")) = Some s ->
  attachments b = collect b (parseInt s).
Proof.
  intros Hb Hs. unfold attachments, ToString.
  now rewrite (get_field b _ Hb), Hs.
Qed.

Lemma filter_length_le {A} (f : A -> bool) (l : list A) :
  (length (filter f l) <= length l)%nat.
Proof.
  induction l as [|a l IH]; simpl; [lia|]. destruct (f a); simpl; lia.
Qed.

(** A count above 2^53 keeps the loop of lines 67-72 running: no list is
    built. *)
Lemma attachments_hang (b : value) (s : string) :
  nullish b = false ->
  to_string (default (field b "NumMedia") (JStr "0")) = Some s ->
  runs_forever (parseInt s) = true ->
  attachments b = Hang.
Proof.
  intros Hb Hs Hrun.
  rewrite (attachments_collect b s Hb Hs). now apply collect_hangs.
Qed.

(** C2, as the code has it.  When [NumMedia] parses to a count [n] of at most 2^53,
    the attachment list is the list of the truthy values among [MediaUrl0]
    .. [MediaUrl(n-1)], in ascending index order: absent and falsy fields
    leave no entry, the length is at most [n], and nothing else in the
    body matters, in particular no field of index [n] or above.  When the
    count is above 2^53 the loop does not end and no list is built. *)
Theorem attachment_list (b : value) (n : Z) (s : string) :
  nullish b = false ->
  to_string (default (field b "NumMedia") (JStr "0")) = Some s ->
  parseInt s = Int n ->
  0 <= n ->
  let N := Z.to_nat n in
  let present :=
    filter truthy (map (fun i => field b (MediaUrl i)) (seq 0 N)) in
  (n <= max_safe ->
   attachments b = Ok present
   /\ (length present <= N)%nat
   /\ (forall v, In v present -> truthy v = true)
   /\ (forall b',
         nullish b' = false ->
         field b' "NumMedia" = field b "NumMedia" ->
         (forall i, (i < N)%nat ->
                    field b' (MediaUrl i) = field b (MediaUrl i)) ->
         attachments b' = Ok present))
  /\ (max_safe < n -> attachments b = Hang).
Proof.
  intros Hb Hs Hn Hpos N present.
  assert (HN : Int n = Int (Z.of_nat N))
    by (unfold N; now rewrite Z2Nat.id).
  split.
  - intros Hle.
    assert (Hle' : Z.of_nat N <= max_safe)
      by (unfold N; now rewrite Z2Nat.id).
    split; [|split; [|split]].
    + rewrite (attachments_collect b s Hb Hs), Hn, HN.
      now apply collect_count.
    + unfold present.
      eapply Nat.le_trans; [apply filter_length_le|].
      rewrite length_map, length_seq. lia.
    + intros v Hv. unfold present in Hv. now apply filter_In in Hv.
    + intros b' Hb' Hnum Hsame.
      rewrite (attachments_collect b' s Hb') by (now rewrite Hnum).
      rewrite Hn, HN, (collect_count b' N Hb' Hle'). unfold present.
      f_equal. f_equal. apply map_ext_in.
      intros i Hi. apply in_seq in Hi. apply Hsame. lia.
  - intros Hgt. apply (attachments_hang b s Hb Hs).
    rewrite Hn. cbn [runs_forever]. now apply Z.ltb_lt.
Qed.

Lemma attachment_list_witness :
  nullish Samples.sms = false
  /\ parseInt "2" = Int 2
  /\ attachments Samples.sms = Ok [JStr "http://x/1.jpg"].
Proof.
  split; [reflexivity|]. split; [reflexivity|].
  refine (proj1 (proj1 (attachment_list Samples.sms 2 "2" eq_refl eq_refl
                          eq_refl _) _)).
  - discriminate.
  - discriminate.
Defined.

(** A count of 2^53 + 2 is parsed from [NumMedia] and [MediaUrl0] is
    present, yet no list is built, for any number of iterations. *)
Lemma endless_count_counterexample :
  parseInt "9007199254740994" = Int 9007199254740994
  /\ truthy (field Samples.overlong (MediaUrl 0)) = true
  /\ attachments Samples.overlong = Hang
  /\ forall fuel : nat,
       media_loop Samples.overlong (Int 9007199254740994) fuel 0 [] = Hang.
Proof.
  split; [reflexivity|]. split; [reflexivity|]. split; [reflexivity|].
  intros fuel. apply media_loop_hangs; [reflexivity|reflexivity|].
  unfold max_safe. lia.
Qed.

(** *** Order of acknowledgment and forward *)

Lemma served_no_rejection (cfg : config) (W : world) (req : request)
    (t : list event) (e : exn) :
  served cfg W req t -> ~ In (UnhandledRejection e) t.
Proof.
  intros Hs Hin.
  destruct Hs;
    repeat match goal with
      | H : In _ (_ ++ _) |- _ => apply in_app_or in H as [H|H]
      | H : In _ (_ :: _) |- _ => destruct H as [H|H]; [discriminate H|]
      | H : In _ [] |- _ => destruct H
      | H : In _ ?l, L : forallb is_log ?l = true |- _ =>
          exact (logs_not_in l (UnhandledRejection e) L eq_refl H)
      | H : In _ (debug_lines ?c ?w ?r ?b) |- _ =>
          exact (logs_not_in _ (UnhandledRejection e)
                   (debug_lines_logs c w r b) eq_refl H)
      end.
Qed.

(** C3.  In the handler of POST /twilio-webhook the acknowledgment goes out
    strictly before the forward call: either the trace has no call at all,
    or it is console output, the acknowledgment, console output, the call,
    console output; the latter is the case for every body that gets as far
    as the acknowledgment.  The downstream application has no influence on
    the response, and no exception leaves the handler or the application:
    neither throws for any body and any downstream behaviour, and serving
    a request leaves no rejected promise. *)
Theorem acknowledged_before_forward (cfg : config) (W : world) (b : value) :
  (forall e, fst (twilio_webhook cfg W b init) <> Throw e)
  /\ (forwards (trace (snd (twilio_webhook cfg W b init))) = []
      \/ exists pre mid post c,
           trace (snd (twilio_webhook cfg W b init))
           = (pre ++ ack :: mid ++ Forward c :: post)%list
           /\ forallb is_log pre = true
           /\ forallb is_log mid = true
           /\ forallb is_log post = true)
  /\ (ready b = true -> bounded b = true ->
      fst (twilio_webhook cfg W b init) = Ok tt
      /\ exists pre mid post c,
           trace (snd (twilio_webhook cfg W b init))
           = (pre ++ ack :: mid ++ Forward c :: post)%list
           /\ forallb is_log pre = true
           /\ forallb is_log mid = true
           /\ forallb is_log post = true)
  /\ (forall d,
        responses (trace (snd (twilio_webhook cfg (mkWorld (clock W) d) b
                                 init)))
        = responses (trace (snd (twilio_webhook cfg W b init))))
  /\ (forall req,
        (forall e, fst (app cfg W req init) <> Throw e)
        /\ forall e, ~ In (UnhandledRejection e) (serve cfg W req)).
Proof.
  assert (Hshape : ready b = true -> bounded b = true ->
            fst (twilio_webhook cfg W b init) = Ok tt
            /\ exists pre mid post c,
                 trace (snd (twilio_webhook cfg W b init))
                 = (pre ++ ack :: mid ++ Forward c :: post)%list
                 /\ forallb is_log pre = true
                 /\ forallb is_log mid = true
                 /\ forallb is_log post = true).
  { intros Hr Hbd.
    destruct (webhook_ready cfg W b init eq_refl Hr Hbd)
      as (from_s & to_s & num_s & mediaUrls & logs
          & _ & _ & _ & _ & Hlogs & ->).
    split; [reflexivity|].
    exists [Log (Received from_s to_s)], [Log (Forwarding (forward_url cfg))],
      logs. eexists. cbn [snd trace init].
    split; [reflexivity|]. auto. }
  split.
  { intros e. rewrite (webhook_returns cfg W b init eq_refl).
    destruct (ready b && negb (bounded b)); discriminate. }
  split.
  { destruct (ready b) eqn:Hr.
    - destruct (bounded b) eqn:Hbd.
      + right. now apply Hshape.
      + left.
        destruct (webhook_hung cfg W b init Hr Hbd)
          as (from_s & to_s & _ & _ & ->).
        reflexivity.
    - left.
      destruct (webhook_unready cfg W b init eq_refl Hr)
        as (pre & e & Hpre & ->).
      cbn [snd trace init]. rewrite app_nil_l.
      rewrite forwards_app, (forwards_logs _ Hpre). reflexivity. }
  split; [exact Hshape|].
  split.
  { intros d. destruct (ready b) eqn:Hr.
    - destruct (bounded b) eqn:Hbd.
      + destruct (webhook_ready cfg W b init eq_refl Hr Hbd)
          as (? & ? & ? & ? & logs & _ & _ & _ & _ & Hlogs & ->).
        destruct (webhook_ready cfg (mkWorld (clock W) d) b init eq_refl Hr
                    Hbd)
          as (? & ? & ? & ? & logs' & _ & _ & _ & _ & Hlogs' & ->).
        cbn [snd trace init]. rewrite !app_nil_l, !responses_app.
        now rewrite (responses_logs _ Hlogs), (responses_logs _ Hlogs').
      + destruct (webhook_hung cfg W b init Hr Hbd)
          as (? & ? & _ & _ & ->).
        destruct (webhook_hung cfg (mkWorld (clock W) d) b init Hr Hbd)
          as (? & ? & _ & _ & ->).
        reflexivity.
    - destruct (webhook_unready cfg W b init eq_refl Hr)
        as (pre & ? & Hpre & ->).
      destruct (webhook_unready cfg (mkWorld (clock W) d) b init eq_refl Hr)
        as (pre' & ? & Hpre' & ->).
      cbn [snd trace init]. rewrite !app_nil_l, !responses_app.
      now rewrite (responses_logs _ Hpre), (responses_logs _ Hpre'). }
  intros req. destruct (serve_cases cfg W req) as [Hs Hc].
  split.
  - intros e He. unfold completes in Hc. rewrite He in Hc.
    destruct Hc as [Hc|[Hc _]]; discriminate.
  - intros e. now apply served_no_rejection with cfg W req.
Qed.

Lemma acknowledged_before_forward_witness :
  ready Samples.sms = true
  /\ exists pre mid post c,
       trace (snd (twilio_webhook Samples.cfg Samples.stalled Samples.sms
                     init))
       = (pre ++ ack :: mid ++ Forward c :: post)%list
       /\ forallb is_log pre = true
       /\ forallb is_log mid = true
       /\ forallb is_log post = true.
Proof.
  split; [reflexivity|].
  exact (proj2 (proj1 (proj2 (proj2 (acknowledged_before_forward Samples.cfg
                                        Samples.stalled Samples.sms)))
                  eq_refl eq_refl)).
Defined.

(** *** The forward call *)

Lemma served_forwards (cfg : config) (W : world) (req : request)
    (t : list event) :
  served cfg W req t ->
  forwards t = []
  \/ exists b mediaUrls,
       req_parsed req = Parsed b /\ ready b = true /\
       attachments b = Ok mediaUrls /\
       forwards t =
       [forward_call cfg
          (payload (field b "From") (field b "To")
             (default (field b "Body") (JStr "")) mediaUrls
             (field b "MessageSid")
             (Date.toISOString (clock W AtReceived)))].
Proof.
  intros Hs. destruct Hs as [ | | | | | | b from_s to_s num_s mediaUrls logs
                                   Hp Hr Hf Ht Hn Hc Hlogs
                             | b pre e Hp Hr Hpre].
  - left; reflexivity.
  - left; reflexivity.
  - left. rewrite forwards_app, (forwards_logs _ (debug_lines_logs _ _ _ _)).
    reflexivity.
  - left. rewrite forwards_app, (forwards_logs _ (debug_lines_logs _ _ _ _)).
    reflexivity.
  - left. rewrite forwards_app, (forwards_logs _ (debug_lines_logs _ _ _ _)).
    reflexivity.
  - left. rewrite forwards_app, (forwards_logs _ (debug_lines_logs _ _ _ _)).
    reflexivity.
  - right. exists b, mediaUrls. repeat split; try assumption.
    + rewrite (attachments_collect b num_s); [assumption| |assumption].
      unfold ready in Hr. apply andb_prop in Hr as [Hr _].
      apply andb_prop in Hr as [Hr _]. apply andb_prop in Hr as [Hr _].
      now apply negb_true_iff in Hr.
    + rewrite !forwards_app, (forwards_logs _ (debug_lines_logs _ _ _ _)),
        (forwards_logs _ Hlogs). reflexivity.
  - left. rewrite !forwards_app, (forwards_logs _ (debug_lines_logs _ _ _ _)),
      (forwards_logs _ Hpre). reflexivity.
Qed.

(** The serialized body has all six keys when sender, recipient and
    identifier are present, and never any other key. *)
Lemma serialized_payload_keys (from to body : value) (mediaUrls : list value)
    (messageId : value) (receivedAt : string) :
  (is_undefined from = false -> is_undefined to = false ->
   is_undefined body = false -> is_undefined messageId = false ->
   serialized_keys (payload from to body mediaUrls messageId receivedAt)
   = ["from"; "to"; "body"; "mediaUrls"; "messageId"; "receivedAt"])
  /\ incl (serialized_keys
             (payload from to body mediaUrls messageId receivedAt))
        ["from"; "to"; "body"; "mediaUrls"; "messageId"; "receivedAt"].
Proof.
  unfold serialized_keys, payload. cbn [filter snd is_undefined negb]. split.
  - intros -> -> -> ->. reflexivity.
  - destruct (is_undefined from), (is_undefined to), (is_undefined body),
      (is_undefined messageId); cbn; intros k Hk; cbn in *; tauto.
Qed.

(** The keys of the serialized body, exactly. *)
Lemma serialized_payload (from to Body : value) (mediaUrls : list value)
    (messageId : value) (receivedAt : string) :
  serialized_keys
    (payload from to (default Body (JStr "")) mediaUrls messageId receivedAt)
  = (kept "from" from ++ kept "to" to ++ ["body"; "mediaUrls"]
     ++ kept "messageId" messageId ++ ["receivedAt"])%list.
Proof.
  assert (HB : is_undefined (default Body (JStr "")) = false)
    by (destruct Body; reflexivity).
  unfold serialized_keys, payload, kept. cbn [filter snd]. rewrite HB.
  destruct (is_undefined from), (is_undefined to), (is_undefined messageId);
    reflexivity.
Qed.

(** C4, as the code has it.  Serving a request makes at most one outbound call, and
    a well-formed webhook request makes exactly one.  The call is a POST
    to the downstream base URL followed by /api/twilio/webhook; its data
    has the properties from, to, body, mediaUrls, messageId and receivedAt,
    in this order, holding the inbound From, To, Body (the empty string
    when absent) and MessageSid, the attachment list, and the ISO-8601
    rendering of the clock read after the acknowledgment; its headers are
    Content-Type: application/json and Authorization: Bearer followed by
    the credential; its timeout is 30000 ms.  The JSON body has the keys
    body, mediaUrls and receivedAt, and the keys from, to and messageId
    when the inbound From, To and MessageSid are there: a property that is
    undefined is left out.  The timestamp has the format
    YYYY-MM-DDTHH:mm:ss.sssZ.  For the example message with two
    attachments announced and only MediaUrl0 present, mediaUrls is the one
    URL. *)
Theorem forward_call_shape (cfg : config) (W : world) :
  (forall req,
     forwards (serve cfg W req) = []
     \/ exists b mediaUrls,
          req_parsed req = Parsed b /\
          attachments b = Ok mediaUrls /\
          forwards (serve cfg W req) =
          [{| call_method := POST;
              call_url := MAIN_APP_URL cfg ++ "/api/twilio/webhook";
              call_data :=
                [("from", field b "From");
                 ("to", field b "To");
                 ("body", default (field b "Body") (JStr ""));
                 ("mediaUrls", JArr mediaUrls);
                 ("messageId", field b "MessageSid");
                 ("receivedAt",
                  JStr (Date.toISOString (clock W AtReceived)))];
              call_headers :=
                [("Content-Type", "application/json");
                 ("Authorization", "Bearer " ++ SUPABASE_ANON_KEY cfg)];
              call_timeout := 30000 |}])
  /\ (forall req,
        well_formed req = true -> length (forwards (serve cfg W req)) = 1%nat)
  /\ (forall req b c,
        req_parsed req = Parsed b ->
        In c (forwards (serve cfg W req)) ->
        serialized_keys (call_data c)
        = (kept "from" (field b "From") ++ kept "to" (field b "To")
           ++ ["body"; "mediaUrls"]
           ++ kept "messageId" (field b "MessageSid")
           ++ ["receivedAt"])%list)
  /\ iso8601 (Date.toISOString (clock W AtReceived))
  /\ (exists c,
        forwards (serve cfg W (Samples.post "/twilio-webhook" Samples.sms))
        = [c]
        /\ assoc "mediaUrls" (call_data c)
           = Some (JArr [JStr "http://x/1.jpg"])).
Proof.
  assert (Hall : forall req,
     forwards (serve cfg W req) = []
     \/ exists b mediaUrls,
          req_parsed req = Parsed b /\ ready b = true /\
          attachments b = Ok mediaUrls /\
          forwards (serve cfg W req) =
          [forward_call cfg
             (payload (field b "From") (field b "To")
                (default (field b "Body") (JStr "")) mediaUrls
                (field b "MessageSid")
                (Date.toISOString (clock W AtReceived)))]).
  { intros req. apply (served_forwards cfg W req).
    exact (proj1 (serve_cases cfg W req)). }
  split; [|split; [|split; [|split; [apply toISOString_iso8601|]]]].
  - intros req. destruct (Hall req) as [H|(b & l & Hp & _ & Ha & H)];
      [now left|right]. now exists b, l.
  - intros req Hwf. unfold well_formed in Hwf.
    apply andb_prop in Hwf as [Hroute Hbody].
    destruct (req_parsed req) as [b|err] eqn:Hp; [|discriminate].
    apply andb_prop in Hbody as [Hready Hbounded].
    destruct (serve_ready cfg W req b Hp Hroute Hready Hbounded)
      as (? & ? & ? & ? & logs & _ & _ & _ & _ & Hlogs & -> & _).
    rewrite !forwards_app, (forwards_logs _ Hlogs),
      (forwards_logs _ (debug_lines_logs _ _ _ _)). reflexivity.
  - intros req b c Hp Hin.
    destruct (Hall req) as [H|(b' & l & Hp' & _ & _ & H)];
      rewrite H in Hin; [destruct Hin|].
    rewrite Hp in Hp'. injection Hp' as <-.
    destruct Hin as [<-|[]]. apply serialized_payload.
  - destruct (Hall (Samples.post "/twilio-webhook" Samples.sms))
      as [H|(b & l & Hp & Hr & Ha & H)].
    + exfalso.
      destruct (serve_ready cfg W (Samples.post "/twilio-webhook" Samples.sms)
                  Samples.sms eq_refl eq_refl eq_refl eq_refl)
        as (? & ? & ? & ? & logs & _ & _ & _ & _ & Hlogs & Hs & _).
      rewrite Hs in H.
      rewrite !forwards_app, (forwards_logs _ Hlogs),
        (forwards_logs _ (debug_lines_logs _ _ _ _)) in H. discriminate H.
    + injection Hp as <-. eexists. split; [exact H|].
      assert (Hl : attachments Samples.sms = Ok [JStr "http://x/1.jpg"])
        by reflexivity.
      rewrite Hl in Ha. injection Ha as <-. reflexivity.
Qed.

Lemma forward_call_shape_witness :
  well_formed (Samples.post "/twilio-webhook" Samples.sms) = true
  /\ length (forwards (serve Samples.cfg Samples.failing
                         (Samples.post "/twilio-webhook" Samples.sms)))
     = 1%nat.
Proof.
  split; [reflexivity|].
  exact (proj1 (proj2 (forward_call_shape Samples.cfg Samples.failing))
           (Samples.post "/twilio-webhook" Samples.sms) eq_refl).
Defined.

(** A webhook request without sender, recipient and identifier is
    acknowledged and forwarded, and the JSON body of the call has three
    keys, not six. *)
Lemma absent_fields_counterexample :
  well_formed (Samples.post "/twilio-webhook" Samples.anonymous) = true
  /\ exists c,
       forwards (serve Samples.cfg Samples.reachable
                   (Samples.post "/twilio-webhook" Samples.anonymous))
       = [c]
       /\ serialized_keys (call_data c) = ["body"; "mediaUrls"; "receivedAt"].
Proof.
  split; [reflexivity|]. eexists. split; reflexivity.
Qed.

(** *** Counts that are not numbers *)







(** *** The exception boundary of the handler *)

(** C6.  An exception thrown in the [try] block of the handler never leaves
    it.  When it is thrown before a response was sent, the handler answers
    with status 500 and the same XML document; when a response was sent
    already, it only logs and sends no second one.  A webhook request whose
    body the handler cannot get through ([ready] fails) is answered in the
    first way, and nothing is forwarded. *)
Theorem exception_boundary (cfg : config) (W : world) :
  (forall b s s' e,
     webhook_try cfg W b s = (Throw e, s') ->
     fst (twilio_webhook cfg W b s) = Ok tt
     /\ (headersSent s' = false ->
         snd (twilio_webhook cfg W b s)
         = mkState (trace s' ++ [LogError (WebhookError e);
                                 Respond 500 (Text twiml)]) true)
     /\ (headersSent s' = true ->
         snd (twilio_webhook cfg W b s)
         = mkState (trace s' ++ [LogError (WebhookError e)]) true))
  /\ (forall req b,
        req_parsed req = Parsed b ->
        method_eqb (req_method req) POST
          && matches "/twilio-webhook" (req_path req) = true ->
        ready b = false ->
        responses (serve cfg W req) = [(500, Text twiml)]
        /\ forwards (serve cfg W req) = []
        /\ completes cfg W req = true).
Proof.
  split.
  - intros b s s' e Htry.
    unfold twilio_webhook, try_catch. rewrite Htry, webhook_catch_run.
    cbn [fst snd]. split; [reflexivity|].
    split; intros ->; reflexivity.
  - intros req b Hp Hroute Hr.
    destruct (serve_unready cfg W req b Hp Hroute Hr)
      as (pre & e & Hpre & -> & ->).
    rewrite !responses_app, !forwards_app.
    rewrite (responses_logs _ Hpre), (forwards_logs _ Hpre),
      (responses_logs _ (debug_lines_logs _ _ _ _)),
      (forwards_logs _ (debug_lines_logs _ _ _ _)).
    repeat split.
Qed.

Lemma exception_boundary_witness :
  (webhook_try Samples.cfg Samples.reachable Samples.hostile init
   = (Throw (TypeError "Cannot convert object to primitive value"), init)
   /\ snd (twilio_webhook Samples.cfg Samples.reachable Samples.hostile init)
      = mkState [LogError (WebhookError
                             (TypeError
                                "Cannot convert object to primitive value"));
                 Respond 500 (Text twiml)] true)
  /\ (headersSent Samples.answered = true
      /\ snd (twilio_webhook Samples.cfg Samples.reachable Samples.sms
                Samples.answered)
         = mkState [Respond 204 NoContent; Log (Received "+1A" "+1B");
                    LogError
                      (WebhookError
                         (mkExn
                            "Cannot set headers after they are sent to the client"
                            None))] true).
Proof.
  split; (split; [reflexivity|]).
  - exact (proj1 (proj2 (proj1 (exception_boundary Samples.cfg
                                  Samples.reachable)
                           Samples.hostile init init _ eq_refl)) eq_refl).
  - exact (proj2 (proj2 (proj1 (exception_boundary Samples.cfg
                                  Samples.reachable)
                           Samples.sms Samples.answered
                           (mkState [Respond 204 NoContent;
                                     Log (Received "+1A" "+1B")] true)
                           _ eq_refl)) eq_refl).
Defined.

(** *** Start-up *)

Lemma truthy_env (env : environment) (name : string) :
  truthy (process_env env name) = true <->
  exists s, getenv name env = Some s /\ s <> "".
Proof.
  unfold process_env. destruct (getenv name env) as [s|]; simpl.
  - rewrite negb_true_iff, String.eqb_neq. split.
    + intros H. now exists s.
    + intros (s' & Hs & Hne). now injection Hs as ->.
  - split; [discriminate|]. intros (s & Hs & _). discriminate.
Qed.

Lemma falsy_env (env : environment) (name : string) :
  truthy (process_env env name) = false <->
  getenv name env = None \/ getenv name env = Some "".
Proof.
  unfold process_env. destruct (getenv name env) as [s|]; simpl.
  - rewrite negb_false_iff, String.eqb_eq. split.
    + intros ->. now right.
    + intros [H|H]; [discriminate|]. now injection H.
  - split; auto.
Qed.

(** C7, as the code has it.  When a required variable is unset or empty the process
    logs the missing names and exits with code 1, and no request is served
    whatever arrives.  When both are set to non-empty strings the
    application takes these two values as its configuration and asks to
    listen on the configured port: when the platform grants it, the
    application listens and serves what arrives; when the platform refuses
    (a port out of range, a port in use), the error is not caught and the
    process ends with code 1 without serving a request. *)
Theorem startup_requires_configuration (env : environment) (os : platform)
    (arrivals : list (world * request)) :
  (getenv "MAIN_APP_URL" env = None \/ getenv "MAIN_APP_URL" env = Some ""
   \/ getenv "SUPABASE_ANON_KEY" env = None
   \/ getenv "SUPABASE_ANON_KEY" env = Some "" ->
   exists names,
     run env os arrivals = [LogError (MissingEnv names); Exit 1]
     /\ responses (run env os arrivals) = [])
  /\ (forall url key,
        getenv "MAIN_APP_URL" env = Some url -> url <> "" ->
        getenv "SUPABASE_ANON_KEY" env = Some key -> key <> "" ->
        MAIN_APP_URL (load env) = url
        /\ SUPABASE_ANON_KEY (load env) = key
        /\ (os (PORT (load env)) = None ->
            exists events,
              startup env os = Serving (load env) events
              /\ In (Listen (PORT (load env))) events
              /\ run env os arrivals
                 = (events ++ serve_all (load env) arrivals)%list)
        /\ (forall e,
              os (PORT (load env)) = Some e ->
              run env os arrivals = [Uncaught e; Exit 1]
              /\ responses (run env os arrivals) = [])).
Proof.
  split.
  - intros Hmissing.
    assert (Hlen : (0 <? length (missingEnvVars env))%nat = true).
    { unfold missingEnvVars, requiredEnvVars. cbn [filter].
      destruct (truthy (process_env env "MAIN_APP_URL")) eqn:Hu;
        [|reflexivity].
      destruct (truthy (process_env env "SUPABASE_ANON_KEY")) eqn:Hk;
        [|reflexivity].
      apply truthy_env in Hu as (u & Hu & Hune).
      apply truthy_env in Hk as (k & Hk & Hkne).
      destruct Hmissing as [H|[H|[H|H]]]; congruence. }
    unfold run, startup. rewrite Hlen. eexists. split; reflexivity.
  - intros url key Hu Hune Hk Hkne.
    assert (Hlen : (0 <? length (missingEnvVars env))%nat = false).
    { unfold missingEnvVars, requiredEnvVars. cbn [filter].
      replace (truthy (process_env env "MAIN_APP_URL")) with true
        by (symmetry; apply truthy_env; now exists url).
      replace (truthy (process_env env "SUPABASE_ANON_KEY")) with true
        by (symmetry; apply truthy_env; now exists key).
      reflexivity. }
    split; [|split; [|split]].
    + unfold load, text; cbn [MAIN_APP_URL]. now rewrite Hu.
    + unfold load, text; cbn [SUPABASE_ANON_KEY]. now rewrite Hk.
    + intros Hos. unfold run, startup. rewrite Hlen, Hos. eexists.
      split; [reflexivity|]. split; [now left | reflexivity].
    + intros e Hos. unfold run, startup. rewrite Hlen, Hos.
      split; reflexivity.
Qed.

Lemma startup_requires_configuration_witness :
  getenv "SUPABASE_ANON_KEY" Samples.env_no_key = None
  /\ exists names,
       run Samples.env_no_key Samples.free
         [(Samples.reachable, Samples.post "/twilio-webhook" Samples.sms)]
       = [LogError (MissingEnv names); Exit 1]
       /\ responses
            (run Samples.env_no_key Samples.free
               [(Samples.reachable,
                 Samples.post "/twilio-webhook" Samples.sms)])
          = [].
Proof.
  split; [reflexivity|].
  apply (proj1 (startup_requires_configuration Samples.env_no_key
                  Samples.free _)).
  right. right. left. reflexivity.
Defined.

(** Both required variables are present in the environment, one of them
    empty: the process exits with code 1 all the same.  Both are present
    and filled, and the port is taken: the process ends with code 1 and
    the request that arrives gets no response. *)
Lemma empty_variable_counterexample :
  getenv "MAIN_APP_URL" Samples.env_empty_url = Some ""
  /\ getenv "SUPABASE_ANON_KEY" Samples.env_empty_url = Some "anon-key"
  /\ startup Samples.env_empty_url Samples.free
     = Exited [LogError (MissingEnv "MAIN_APP_URL"); Exit 1]
  /\ getenv "MAIN_APP_URL" Samples.env_ok = Some "https://main.example"
  /\ getenv "SUPABASE_ANON_KEY" Samples.env_ok = Some "anon-key"
  /\ Views.exits (run Samples.env_ok Samples.taken
              [(Samples.reachable, Samples.stray)]) = [1]
  /\ responses (run Samples.env_ok Samples.taken
                  [(Samples.reachable, Samples.stray)]) = [].
Proof. repeat split. Qed.

(** *** Unknown routes *)

(** C8, as the code has it.  A request that is not a preflight (OPTIONS), whose body
    the parsers accepted, and whose path is not one of the two endpoints,
    is answered with status 404 and a JSON body with an error field and
    the list of routes, /health and /twilio-webhook, when its path can be
    decoded; a path with a malformed escape is answered by the error
    handler with status 500. *)
Theorem unknown_route_not_found (cfg : config) (W : world) (req : request)
    (b : value) :
  req_method req <> OPTIONS ->
  req_parsed req = Parsed b ->
  recognized (req_path req) = false ->
  (decodable (req_path req) = true ->
   responses (serve cfg W req)
   = [(404,
       Json (JObj [("error", JStr "Route not found");
                   ("availableRoutes",
                    JArr [JStr "/health"; JStr "/twilio-webhook"])]))])
  /\ (decodable (req_path req) = false ->
      responses (serve cfg W req)
      = [(500,
          Json (JObj [("error", JStr "Internal server error");
                      ("message",
                       JStr (if DEBUG_MODE cfg
                             then "Failed to decode param '"
                                  ++ req_path req ++ "'"
                             else "Something went wrong"))]))]).
Proof.
  intros Hm Hp Hpath. unfold recognized in Hpath.
  apply orb_false_elim in Hpath as [Hh Hw].
  assert (Hh' : is_get (req_method req) && matches "/health" (req_path req)
                = false) by (rewrite Hh; apply andb_false_r).
  assert (Hw' : method_eqb (req_method req) POST
                && matches "/twilio-webhook" (req_path req) = false)
    by (rewrite Hw; apply andb_false_r).
  split; intros Hd.
  - destruct (serve_not_found cfg W req b Hm Hp Hh' Hw' Hd) as [-> _].
    rewrite responses_app, (responses_logs _ (debug_lines_logs _ _ _ _)).
    reflexivity.
  - destruct (serve_undecodable cfg W req b Hm Hp Hh' Hw' Hd) as [-> _].
    rewrite responses_app, (responses_logs _ (debug_lines_logs _ _ _ _)).
    reflexivity.
Qed.

Lemma unknown_route_not_found_witness :
  req_method Samples.stray <> OPTIONS
  /\ recognized (req_path Samples.stray) = false
  /\ decodable (req_path Samples.stray) = true
  /\ responses (serve Samples.cfg Samples.reachable Samples.stray)
     = [(404, not_found_body)].
Proof.
  split; [discriminate|]. split; [reflexivity|]. split; [reflexivity|].
  apply (unknown_route_not_found Samples.cfg Samples.reachable Samples.stray
           (JObj [])); [discriminate | reflexivity | reflexivity
                        | reflexivity].
Defined.

(** A request to an unknown path whose body is rejected by the parser is
    answered by the error handler with status 500, a preflight to an
    unknown path is ended by the CORS middleware with status 204, and a
    GET request to the unknown path /%zz, which cannot be decoded, is
    answered by the error handler with status 500. *)
Lemma unknown_route_counterexample :
  recognized (req_path Samples.bad_json) = false
  /\ responses (serve Samples.cfg Samples.reachable Samples.bad_json)
     = [(500, server_error_body "Something went wrong")]
  /\ recognized (req_path Samples.preflight) = false
  /\ responses (serve Samples.cfg Samples.reachable Samples.preflight)
     = [(204, NoContent)]
  /\ recognized (req_path Samples.malformed) = false
  /\ responses (serve Samples.cfg Samples.reachable Samples.malformed)
     = [(500, server_error_body "Something went wrong")].
Proof. repeat split. Qed.

(** *** The debug flag *)

Lemma visible_debug (cfg : config) (W : world) (req : request) (b : value)
    (t : list event) :
  visible (debug_lines cfg W req b ++ t) = visible t.
Proof.
  now rewrite visible_app, (visible_logs _ (debug_lines_logs _ _ _ _)).
Qed.

Lemma responses_visible (t : list event) :
  responses (visible t) = responses t.
Proof.
  induction t as [|e t IH]; [reflexivity|].
  destruct e; simpl; first [exact IH | f_equal; exact IH].
Qed.

Lemma forwards_visible (t : list event) :
  forwards (visible t) = forwards t.
Proof.
  induction t as [|e t IH]; [reflexivity|].
  destruct e; simpl; first [exact IH | f_equal; exact IH].
Qed.

(** C9.  Two configurations that differ in the debug flag only serve every
    request alike apart from console output.  When the request reaches a
    route (its body was parsed, and its path is one of the two endpoints or
    any path that can be decoded), the traces without console output are
    equal: same response, status and body, and same forward call.  The one
    response that differs is the one of the error handler, for a request
    the parsers rejected or a path that cannot be decoded: same status
    500, same error field, and a message field that is the error's message
    with the flag and a fixed text without it. *)
Theorem debug_flag_only_logs (port : value) (url key : string) (W : world)
    (req : request) :
  let on := mkConfig port url key true in
  let off := mkConfig port url key false in
  map fst (responses (serve on W req)) = map fst (responses (serve off W req))
  /\ forwards (serve on W req) = forwards (serve off W req)
  /\ (forall b, req_parsed req = Parsed b ->
                recognized (req_path req) = true
                \/ decodable (req_path req) = true ->
                visible (serve on W req) = visible (serve off W req)
                /\ responses (serve on W req) = responses (serve off W req))
  /\ (responses (serve on W req) = responses (serve off W req)
      \/ exists err,
           (req_parsed req = Rejected err
            \/ decodable (req_path req) = false
               /\ err = URIError (req_path req))
           /\ responses (serve on W req)
              = [(500, Json (JObj [("error", JStr "Internal server error");
                                   ("message", JStr (message err))]))]
           /\ responses (serve off W req)
              = [(500, Json (JObj [("error", JStr "Internal server error");
                                   ("message",
                                    JStr "Something went wrong")]))]).
Proof.
  intros on off.
  assert (Hroutes : forall b, req_parsed req = Parsed b ->
            req_method req <> OPTIONS ->
            decodable (req_path req) = true ->
            visible (serve on W req) = visible (serve off W req)).
  { intros b Hp Hm Hd.
    destruct (is_get (req_method req) && matches "/health" (req_path req))
      eqn:Hh.
    { destruct (serve_health on W req b Hp Hh) as [-> _].
      destruct (serve_health off W req b Hp Hh) as [-> _].
      now rewrite !visible_debug. }
    destruct (method_eqb (req_method req) POST
              && matches "/twilio-webhook" (req_path req)) eqn:Hw.
    2:{ destruct (serve_not_found on W req b Hm Hp Hh Hw Hd) as [-> _].
        destruct (serve_not_found off W req b Hm Hp Hh Hw Hd) as [-> _].
        now rewrite !visible_debug. }
    destruct (ready b) eqn:Hr.
    - destruct (bounded b) eqn:Hbd.
      + destruct (serve_ready on W req b Hp Hw Hr Hbd)
          as (f1 & t1 & n1 & m1 & l1 & Hf1 & Ht1 & Hn1 & Hc1 & Hl1 & -> & _).
        destruct (serve_ready off W req b Hp Hw Hr Hbd)
          as (f2 & t2 & n2 & m2 & l2 & Hf2 & Ht2 & Hn2 & Hc2 & Hl2 & -> & _).
        rewrite Hf1 in Hf2; injection Hf2 as <-.
        rewrite Ht1 in Ht2; injection Ht2 as <-.
        rewrite Hn1 in Hn2; injection Hn2 as <-.
        rewrite Hc1 in Hc2; injection Hc2 as <-.
        rewrite !visible_debug, !visible_app.
        now rewrite (visible_logs _ Hl1), (visible_logs _ Hl2).
      + destruct (serve_hung on W req b Hp Hw Hr Hbd) as (? & ? & -> & _).
        destruct (serve_hung off W req b Hp Hw Hr Hbd) as (? & ? & -> & _).
        now rewrite !visible_debug.
    - destruct (serve_unready on W req b Hp Hw Hr)
        as (p1 & e1 & Hp1 & -> & _).
      destruct (serve_unready off W req b Hp Hw Hr)
        as (p2 & e2 & Hp2 & -> & _).
      rewrite !visible_debug, !visible_app.
      now rewrite (visible_logs _ Hp1), (visible_logs _ Hp2). }
  assert (Hproj : forall t u, visible t = visible u ->
            responses t = responses u /\ forwards t = forwards u).
  { intros t u E.
    rewrite <- (responses_visible t), <- (responses_visible u),
      <- (forwards_visible t), <- (forwards_visible u), E.
    split; reflexivity. }
  destruct (method_eqb (req_method req) OPTIONS) eqn:Ho.
  - assert (Hm : req_method req = OPTIONS)
      by (destruct (req_method req); try discriminate; reflexivity).
    destruct (serve_preflight on W req Hm) as [-> _].
    destruct (serve_preflight off W req Hm) as [-> _].
    split; [reflexivity|]. split; [reflexivity|].
    split; [intros b _ _; split; reflexivity | left; reflexivity].
  - assert (Hm : req_method req <> OPTIONS)
      by (intros E; rewrite E in Ho; discriminate).
    destruct (req_parsed req) as [b|err] eqn:Hp.
    + destruct (decodable (req_path req)) eqn:Hd.
      * destruct (Hproj _ _ (Hroutes b eq_refl Hm eq_refl)) as [Hr Hf].
        split; [now rewrite Hr|]. split; [exact Hf|].
        split; [|left; exact Hr].
        intros b' _ _. split; [exact (Hroutes b eq_refl Hm eq_refl)
                              | exact Hr].
      * destruct (recognized (req_path req)) eqn:Hrec;
          [apply recognized_decodable in Hrec; congruence|].
        unfold recognized in Hrec.
        apply orb_false_elim in Hrec as [Hh Hw].
        assert (Hh' : is_get (req_method req)
                      && matches "/health" (req_path req) = false)
          by (rewrite Hh; apply andb_false_r).
        assert (Hw' : method_eqb (req_method req) POST
                      && matches "/twilio-webhook" (req_path req) = false)
          by (rewrite Hw; apply andb_false_r).
        destruct (serve_undecodable on W req b Hm Hp Hh' Hw' Hd) as [-> _].
        destruct (serve_undecodable off W req b Hm Hp Hh' Hw' Hd) as [-> _].
        rewrite !responses_app, !forwards_app,
          !(responses_logs _ (debug_lines_logs _ _ _ _)),
          !(forwards_logs _ (debug_lines_logs _ _ _ _)).
        split; [reflexivity|]. split; [reflexivity|].
        split; [intros b' _ [H|H]; discriminate H|].
        right. exists (URIError (req_path req)).
        split; [right; split; reflexivity|]. split; reflexivity.
    + destruct (serve_rejected on W req err Hm Hp) as [-> _].
      destruct (serve_rejected off W req err Hm Hp) as [-> _].
      split; [reflexivity|]. split; [reflexivity|].
      split; [intros b Hb; discriminate Hb|].
      right. exists err. split; [now left|]. split; reflexivity.
Qed.

Lemma debug_flag_only_logs_witness :
  recognized "/twilio-webhook" = true
  /\ responses (serve (mkConfig (JNum default_port) "https://main.example"
                         "anon-key" true)
                  Samples.failing
                  (Samples.post "/twilio-webhook" Samples.sms))
     = responses (serve Samples.cfg Samples.failing
                    (Samples.post "/twilio-webhook" Samples.sms)).
Proof.
  split; [reflexivity|].
  exact (proj2 (proj1 (proj2 (proj2
           (debug_flag_only_logs (JNum default_port) "https://main.example"
              "anon-key" Samples.failing
              (Samples.post "/twilio-webhook" Samples.sms))))
           Samples.sms eq_refl (or_introl eq_refl))).
Defined.

(** *** Absent fields *)



(* ================================================================== *)
(** ** Further properties *)
(* ================================================================== *)

Import Lifecycle Views.

(** *** The handler, exactly *)

(** The forward adds the call and the lines of [outcome]. *)
Lemma forward_exact (cfg : config) (W : world) (startTime : Z)
    (data : list (string * value)) (s : state) :
  forward cfg W startTime data s =
  (Ok tt,
   mkState (trace s ++ Forward (forward_call cfg data)
              :: outcome cfg W startTime) (headersSent s)).
Proof.
  unfold forward, try_catch, axios_post, outcome.
  destruct (main_app W) as [status d|msg|].
  - destruct ((200 <=? status) && (status <? 300)).
    + destruct (DEBUG_MODE cfg); run_effects; cbn;
        rewrite <- !app_assoc; reflexivity.
    + run_effects. cbn. rewrite <- !app_assoc. reflexivity.
  - run_effects. cbn. rewrite <- !app_assoc. reflexivity.
  - run_effects. cbn. rewrite <- !app_assoc. reflexivity.
Qed.

Lemma ready_strings (b : value) :
  ready b = true ->
  nullish b = false
  /\ exists from_s to_s num_s,
       to_string (field b "From") = Some from_s
       /\ to_string (field b "To") = Some to_s
       /\ to_string (default (field b "NumMedia") (JStr "0")) = Some num_s.
Proof.
  intros Hr. unfold ready in Hr.
  apply andb_prop in Hr as [Hr Hnum]. apply andb_prop in Hr as [Hr Hto].
  apply andb_prop in Hr as [Hb Hfrom]. apply negb_true_iff in Hb.
  rewrite <- printable_default in Hnum.
  apply printable_some in Hfrom as [from_s Hfrom].
  apply printable_some in Hto as [to_s Hto].
  apply printable_some in Hnum as [num_s Hnum].
  split; [assumption|]. now exists from_s, to_s, num_s.
Qed.

Lemma ready_parts (b : value) :
  ready b = true ->
  bounded b = true ->
  nullish b = false
  /\ exists from_s to_s num_s mediaUrls,
       to_string (field b "From") = Some from_s
       /\ to_string (field b "To") = Some to_s
       /\ to_string (default (field b "NumMedia") (JStr "0")) = Some num_s
       /\ collect b (parseInt num_s) = Ok mediaUrls
       /\ attachments b = Ok mediaUrls.
Proof.
  intros Hr Hbd.
  destruct (ready_strings b Hr)
    as (Hb & from_s & to_s & num_s & Hfrom & Hto & Hnum).
  unfold bounded in Hbd. rewrite (count_of_printed b num_s Hnum) in Hbd.
  apply negb_true_iff in Hbd.
  destruct (collect_total b (parseInt num_s) Hb Hbd) as [mediaUrls Hc].
  split; [assumption|]. exists from_s, to_s, num_s, mediaUrls.
  repeat (split; [assumption|]).
  now rewrite (attachments_collect b num_s Hb Hnum).
Qed.

(** The run of the handler on a body that is [ready], event by event. *)
Lemma webhook_ready_exact (cfg : config) (W : world) (b : value) (s : state)
    (from_s to_s : string) (mediaUrls : list value) :
  headersSent s = false ->
  ready b = true ->
  to_string (field b "From") = Some from_s ->
  to_string (field b "To") = Some to_s ->
  attachments b = Ok mediaUrls ->
  twilio_webhook cfg W b s =
  (Ok tt,
   mkState
     (trace s
      ++ [Log (Received from_s to_s); ack;
          Log (Forwarding (forward_url cfg));
          Forward
            (forward_call cfg
               (payload (field b "From") (field b "To")
                  (default (field b "Body") (JStr "")) mediaUrls
                  (field b "MessageSid")
                  (Date.toISOString (clock W AtReceived))))]
      ++ outcome cfg W (clock W AtStart)) true).
Proof.
  intros Hs Hr Hfrom Hto Hatt.
  destruct (ready_strings b Hr) as (Hb & f & t & num_s & Hf & Ht & Hnum).
  rewrite Hfrom in Hf; injection Hf as <-.
  rewrite Hto in Ht; injection Ht as <-.
  assert (Hc : collect b (parseInt num_s) = Ok mediaUrls)
    by (now rewrite <- (attachments_collect b num_s Hb Hnum)).
  unfold twilio_webhook, webhook_try, try_catch.
  unfold bind, lift, ToString.
  rewrite !(get_field b _ Hb). rewrite Hfrom, Hto, Hnum, Hc.
  unfold console_log, emit, send. cbn [trace headersSent]. rewrite Hs.
  rewrite forward_exact.
  cbn [trace headersSent]. unfold ack. rewrite <- !app_assoc. reflexivity.
Qed.

(** On a body that is not [ready] the [try] block throws the same
    exception after the same console output, whatever the configuration,
    the world and the events so far. *)
Lemma webhook_try_unready_uniform (b : value) :
  ready b = false ->
  exists pre e,
    (pre = [] \/ exists from_s to_s, pre = [Log (Received from_s to_s)]) /\
    forall cfg W s,
      headersSent s = false ->
      webhook_try cfg W b s = (Throw e, mkState (trace s ++ pre) false).
Proof.
  intros Hr. unfold webhook_try, bind, lift, ToString.
  destruct (nullish b) eqn:Hb.
  - exists [], (TypeError
                  ("Cannot read properties of undefined or null: " ++ "From")).
    split; [now left|]. intros cfg W s Hs.
    rewrite app_nil_r, (state_eta s Hs).
    destruct b; try discriminate; reflexivity.
  - unfold ready in Hr. rewrite Hb in Hr. cbn [negb andb] in Hr.
    destruct (printable (field b "From")) eqn:Hfrom.
    + apply printable_some in Hfrom as [from_s Hfrom].
      destruct (printable (field b "To")) eqn:Hto.
      * apply printable_some in Hto as [to_s Hto].
        cbn [andb] in Hr. rewrite <- printable_default in Hr.
        exists [Log (Received from_s to_s)],
          (TypeError "Cannot convert object to primitive value").
        split; [right; now exists from_s, to_s|]. intros cfg W s Hs.
        rewrite !(get_field b _ Hb), Hfrom, Hto, (printable_none _ Hr).
        unfold console_log, emit.
        cbn [trace headersSent]. rewrite Hs. reflexivity.
      * exists [], (TypeError "Cannot convert object to primitive value").
        split; [now left|]. intros cfg W s Hs.
        rewrite !(get_field b _ Hb), Hfrom, (printable_none _ Hto).
        now rewrite app_nil_r, (state_eta s Hs).
    + exists [], (TypeError "Cannot convert object to primitive value").
      split; [now left|]. intros cfg W s Hs.
      rewrite !(get_field b _ Hb), (printable_none _ Hfrom).
      now rewrite app_nil_r, (state_eta s Hs).
Qed.

Lemma webhook_unready_uniform (b : value) :
  ready b = false ->
  exists pre e,
    (pre = [] \/ exists from_s to_s, pre = [Log (Received from_s to_s)]) /\
    forall cfg W s,
      headersSent s = false ->
      twilio_webhook cfg W b s =
      (Ok tt,
       mkState (trace s ++ pre ++ [LogError (WebhookError e); error_ack])
         true).
Proof.
  intros Hr.
  destruct (webhook_try_unready_uniform b Hr) as (pre & e & Hpre & Htry).
  exists pre, e. split; [assumption|]. intros cfg W s Hs.
  unfold twilio_webhook, try_catch. rewrite (Htry cfg W s Hs).
  rewrite webhook_catch_run. cbn [trace headersSent].
  now rewrite <- app_assoc.
Qed.

(** The handler only appends to the trace, and what it appends does not
    depend on the events before. *)
Lemma webhook_frame (cfg : config) (W : world) (b : value) (s : state) :
  headersSent s = false ->
  twilio_webhook cfg W b s
  = (if ready b && negb (bounded b) then Hang else Ok tt,
     mkState (trace s ++ handled cfg W b)
       (negb (ready b && negb (bounded b)))).
Proof.
  intros Hs. unfold handled. destruct (ready b) eqn:Hr.
  - destruct (bounded b) eqn:Hbd; cbn [andb negb].
    + destruct (ready_parts b Hr Hbd)
        as (Hb & f & t & num_s & l & Hf & Ht & Hnum & Hc & Ha).
      rewrite (webhook_ready_exact cfg W b s f t l Hs Hr Hf Ht Ha).
      rewrite (webhook_ready_exact cfg W b init f t l eq_refl Hr Hf Ht Ha).
      reflexivity.
    + destruct (webhook_hung cfg W b s Hr Hbd) as (f & t & Hf & Ht & ->).
      destruct (webhook_hung cfg W b init Hr Hbd)
        as (f' & t' & Hf' & Ht' & ->).
      rewrite Hf in Hf'; injection Hf' as <-.
      rewrite Ht in Ht'; injection Ht' as <-.
      rewrite Hs. reflexivity.
  - destruct (webhook_unready_uniform b Hr) as (pre & e & Hpre & Hrun).
    rewrite (Hrun cfg W s Hs), (Hrun cfg W init eq_refl). reflexivity.
Qed.

Lemma serve_webhook_handled (cfg : config) (W : world) (req : request)
    (b : value) :
  req_parsed req = Parsed b ->
  method_eqb (req_method req) POST
    && matches "/twilio-webhook" (req_path req) = true ->
  serve cfg W req = (debug_lines cfg W req b ++ handled cfg W b)%list.
Proof.
  intros Hp Hw. unfold serve.
  rewrite (serve_webhook cfg W req b Hp Hw).
  unfold async, try_catch. rewrite webhook_frame by reflexivity.
  destruct (ready b && negb (bounded b)); reflexivity.
Qed.

Lemma handled_ready (b : value) :
  ready b = true ->
  bounded b = true ->
  exists from_s to_s mediaUrls,
    attachments b = Ok mediaUrls /\
    forall cfg W,
      handled cfg W b =
      ([Log (Received from_s to_s); ack;
        Log (Forwarding (forward_url cfg));
        Forward
          (forward_call cfg
             (payload (field b "From") (field b "To")
                (default (field b "Body") (JStr "")) mediaUrls
                (field b "MessageSid")
                (Date.toISOString (clock W AtReceived))))]
       ++ outcome cfg W (clock W AtStart))%list.
Proof.
  intros Hr Hbd.
  destruct (ready_parts b Hr Hbd)
    as (Hb & f & t & num_s & l & Hf & Ht & Hnum & Hc & Ha).
  exists f, t, l. split; [assumption|]. intros cfg W. unfold handled.
  now rewrite (webhook_ready_exact cfg W b init f t l eq_refl Hr Hf Ht Ha).
Qed.

(** A count above 2^53: the handler prints its first line and stays in
    the loop. *)
Lemma handled_hung (b : value) :
  ready b = true ->
  bounded b = false ->
  exists from_s to_s,
    to_string (field b "From") = Some from_s /\
    to_string (field b "To") = Some to_s /\
    forall cfg W, handled cfg W b = [Log (Received from_s to_s)].
Proof.
  intros Hr Hbd.
  destruct (ready_strings b Hr) as (Hb & f & t & num_s & Hf & Ht & Hnum).
  exists f, t. split; [assumption|]. split; [assumption|].
  intros cfg W. unfold handled.
  destruct (webhook_hung cfg W b init Hr Hbd) as (f' & t' & Hf' & Ht' & ->).
  rewrite Hf in Hf'; injection Hf' as <-.
  rewrite Ht in Ht'; injection Ht' as <-.
  reflexivity.
Qed.

Lemma handled_unready (b : value) :
  ready b = false ->
  exists pre e,
    (pre = [] \/ exists from_s to_s, pre = [Log (Received from_s to_s)]) /\
    forall cfg W,
      handled cfg W b = (pre ++ [LogError (WebhookError e); error_ack])%list.
Proof.
  intros Hr. destruct (webhook_unready_uniform b Hr) as (pre & e & Hpre & Hrun).
  exists pre, e. split; [assumption|]. intros cfg W. unfold handled.
  now rewrite (Hrun cfg W init eq_refl).
Qed.

(** A handler that returns leaves the application free for the next
    request; one that does not return is the one of an [unending]
    request. *)
Lemma completes_finishes (cfg : config) (W : world) (req : request) :
  completes cfg W req = true -> finishes cfg W req = true.
Proof.
  unfold completes, finishes. now destruct (fst (app cfg W req init)).
Qed.

Lemma unending_parts (req : request) :
  unending req = true <->
  method_eqb (req_method req) POST
    && matches "/twilio-webhook" (req_path req) = true
  /\ exists b, req_parsed req = Parsed b
               /\ ready b = true /\ bounded b = false.
Proof.
  unfold unending. split.
  - intros H. apply andb_prop in H as [Hw H]. split; [assumption|].
    destruct (req_parsed req) as [b|err]; [|discriminate].
    apply andb_prop in H as [Hr Hbd]. apply negb_true_iff in Hbd.
    now exists b.
  - intros (Hw & b & -> & Hr & Hbd). now rewrite Hw, Hr, Hbd.
Qed.

Lemma finishes_unending (cfg : config) (W : world) (req : request) :
  finishes cfg W req = negb (unending req).
Proof.
  destruct (serve_cases cfg W req) as [_ [Hc|(Hh & Hw & b & Hp & Hr & Hbd)]].
  - rewrite (completes_finishes cfg W req Hc). symmetry.
    apply negb_true_iff. destruct (unending req) eqn:Hu; [|reflexivity].
    apply unending_parts in Hu as (Hw & b & Hp & Hr & Hbd).
    destruct (serve_hung cfg W req b Hp Hw Hr Hbd) as (? & ? & _ & Hh).
    unfold completes in Hc. rewrite Hh in Hc. discriminate.
  - unfold finishes. rewrite Hh. symmetry. apply negb_false_iff.
    apply unending_parts. split; [assumption|]. now exists b.
Qed.

(** *** One response per request *)

Lemma responses_cases (cfg : config) (W : world) (req : request) :
  if unending req
  then responses (serve cfg W req) = []
  else exists code body,
         responses (serve cfg W req) = [(code, body)]
         /\ In code [200; 204; 404; 500].
Proof.
  destruct (unending req) eqn:Hu.
  - apply unending_parts in Hu as (Hw & b & Hp & Hr & Hbd).
    destruct (serve_hung cfg W req b Hp Hw Hr Hbd) as (? & ? & -> & _).
    now rewrite responses_app, (responses_logs _ (debug_lines_logs _ _ _ _)).
  - destruct (proj1 (serve_cases cfg W req))
      as [ | err | b | b | b | b from_s to_s Hp Hu'
         | b from_s to_s num_s mediaUrls logs Hp Hr Hf Ht Hn Hc Hlogs
         | b pre e Hp Hr Hpre].
    6:{ congruence. }
    all: repeat rewrite responses_app;
      rewrite ?(responses_logs _ (debug_lines_logs _ _ _ _)),
        ?(responses_logs _ Hlogs), ?(responses_logs _ Hpre);
      cbn [responses flat_map app]; eexists _, _;
      (split; [reflexivity | cbn; auto 10]).
Qed.

(** X1.  A request gets exactly one response, with status 200, 204, 404 or
    500, unless it is a POST to /twilio-webhook whose body gets as far as
    the loop with a count above 2^53: then the handler does not end and
    there is no response.  The handler ends for every other request. *)
Theorem one_response (cfg : config) (W : world) (req : request) :
  (unending req = false ->
   exists code body,
     responses (serve cfg W req) = [(code, body)]
     /\ In code [200; 204; 404; 500])
  /\ (unending req = true -> responses (serve cfg W req) = [])
  /\ finishes cfg W req = negb (unending req).
Proof.
  pose proof (responses_cases cfg W req) as H.
  split; [|split].
  - intros Hu. now rewrite Hu in H.
  - intros Hu. now rewrite Hu in H.
  - apply finishes_unending.
Qed.

Lemma one_response_witness :
  unending (Samples.post "/twilio-webhook" Samples.endless) = true
  /\ responses (serve Samples.cfg Samples.reachable
                  (Samples.post "/twilio-webhook" Samples.endless)) = []
  /\ unending Samples.malformed = false
  /\ exists code body,
       responses (serve Samples.cfg Samples.reachable Samples.malformed)
       = [(code, body)]
       /\ In code [200; 204; 404; 500].
Proof.
  split; [reflexivity|]. split.
  - exact (proj1 (proj2 (one_response Samples.cfg Samples.reachable
                           (Samples.post "/twilio-webhook" Samples.endless)))
             eq_refl).
  - split; [reflexivity|].
    exact (proj1 (one_response Samples.cfg Samples.reachable
                    Samples.malformed) eq_refl).
Defined.

(** *** The health endpoint *)



(** *** Routing *)

Lemma matches_disjoint (path : string) :
  matches "/health" path && matches "/twilio-webhook" path = false.
Proof.
  unfold matches.
  destruct (String.eqb_spec (lowercase path) "/health") as [->|_];
    [reflexivity|].
  destruct (String.eqb_spec (lowercase path) ("/health" ++ "/")) as [->|_];
    [reflexivity|].
  reflexivity.
Qed.

(** X3.  An endpoint path used with another method falls through to the
    catch-all: /health with a method other than GET and HEAD, and
    /twilio-webhook with a method other than POST, are answered 404 with
    the list of routes (OPTIONS apart), and nothing is forwarded. *)
Theorem wrong_method_not_found (cfg : config) (W : world) (req : request)
    (b : value) :
  req_parsed req = Parsed b ->
  req_method req <> OPTIONS ->
  (matches "/health" (req_path req) = true /\ is_get (req_method req) = false
   \/ matches "/twilio-webhook" (req_path req) = true
      /\ req_method req <> POST) ->
  responses (serve cfg W req) = [(404, not_found_body)]
  /\ forwards (serve cfg W req) = [].
Proof.
  intros Hp Hm Hroute.
  pose proof (matches_disjoint (req_path req)) as Hd.
  destruct (serve_not_found cfg W req b Hm Hp) as [-> _].
  - destruct Hroute as [[Hh Hg]|[Hw Hpost]].
    + now rewrite Hg.
    + rewrite Hw, andb_true_r in Hd. rewrite Hd. apply andb_false_r.
  - destruct Hroute as [[Hh Hg]|[Hw Hpost]].
    + rewrite Hh in Hd. cbn [andb] in Hd. rewrite Hd. apply andb_false_r.
    + destruct (req_method req); try reflexivity. now destruct Hpost.
  - apply recognized_decodable. unfold recognized.
    destruct Hroute as [[Hh _]|[Hw _]];
      [now rewrite Hh | rewrite Hw; apply orb_true_r].
  - rewrite responses_app, forwards_app,
      (responses_logs _ (debug_lines_logs _ _ _ _)),
      (forwards_logs _ (debug_lines_logs _ _ _ _)).
    split; reflexivity.
Qed.

Lemma wrong_method_not_found_witness :
  matches "/twilio-webhook" (req_path MoreSamples.misdirected) = true
  /\ req_method MoreSamples.misdirected <> POST
  /\ responses (serve Samples.cfg Samples.reachable MoreSamples.misdirected)
     = [(404, not_found_body)].
Proof.
  split; [reflexivity|]. split; [discriminate|].
  refine (proj1 (wrong_method_not_found Samples.cfg Samples.reachable
                   MoreSamples.misdirected (JObj []) eq_refl _ _)).
  - discriminate.
  - right. split; [reflexivity | discriminate].
Defined.

(** X4.  A call to the downstream application is made only for a POST to
    /twilio-webhook whose body was parsed and got through the handler, and
    then the acknowledgment is in the trace: no other route, and no
    request answered with an error, forwards anything. *)
Theorem forward_only_from_webhook (cfg : config) (W : world) (req : request) :
  forwards (serve cfg W req) <> [] ->
  req_method req = POST
  /\ matches "/twilio-webhook" (req_path req) = true
  /\ (exists b, req_parsed req = Parsed b /\ ready b = true)
  /\ responses (serve cfg W req) = [(200, Text twiml)].
Proof.
  intros Hf.
  destruct (method_eqb (req_method req) OPTIONS) eqn:Ho.
  { assert (Hm : req_method req = OPTIONS)
      by (destruct (req_method req); try discriminate; reflexivity).
    destruct (serve_preflight cfg W req Hm) as [Hs _].
    rewrite Hs in Hf. now destruct Hf. }
  assert (Hm : req_method req <> OPTIONS)
    by (intros E; rewrite E in Ho; discriminate).
  destruct (req_parsed req) as [b|err] eqn:Hp.
  2:{ destruct (serve_rejected cfg W req err Hm Hp) as [Hs _].
      rewrite Hs in Hf. now destruct Hf. }
  destruct (is_get (req_method req) && matches "/health" (req_path req))
    eqn:Hh.
  { destruct (serve_health cfg W req b Hp Hh) as [Hs _]. rewrite Hs in Hf.
    rewrite forwards_app, (forwards_logs _ (debug_lines_logs _ _ _ _)) in Hf.
    now destruct Hf. }
  destruct (method_eqb (req_method req) POST
            && matches "/twilio-webhook" (req_path req)) eqn:Hw.
  2:{ destruct (decodable (req_path req)) eqn:Hd.
      - destruct (serve_not_found cfg W req b Hm Hp Hh Hw Hd) as [Hs _].
        rewrite Hs in Hf.
        rewrite forwards_app, (forwards_logs _ (debug_lines_logs _ _ _ _))
          in Hf. now destruct Hf.
      - destruct (serve_undecodable cfg W req b Hm Hp Hh Hw Hd) as [Hs _].
        rewrite Hs in Hf.
        rewrite forwards_app, (forwards_logs _ (debug_lines_logs _ _ _ _))
          in Hf. now destruct Hf. }
  rewrite (serve_webhook_handled cfg W req b Hp Hw) in Hf |- *.
  destruct (ready b) eqn:Hr.
  - destruct (bounded b) eqn:Hbd.
    2:{ exfalso. apply Hf.
        destruct (handled_hung b Hr Hbd) as (f & t & _ & _ & ->).
        now rewrite forwards_app,
          (forwards_logs _ (debug_lines_logs _ _ _ _)). }
    apply andb_prop in Hw as [Hpost Hpath].
    split; [destruct (req_method req); try discriminate; reflexivity|].
    split; [assumption|]. split; [now exists b|].
    destruct (handled_ready b Hr Hbd) as (f & t & l & _ & ->).
    rewrite !responses_app, (responses_logs _ (debug_lines_logs _ _ _ _)).
    assert (Ho' : responses (outcome cfg W (clock W AtStart)) = []).
    { unfold outcome. destruct (main_app W) as [st d| |];
        [destruct ((200 <=? st) && (st <? 300)); [destruct (DEBUG_MODE cfg)|]
        | | ]; reflexivity. }
    rewrite Ho'. reflexivity.
  - exfalso. apply Hf.
    destruct (handled_unready b Hr) as (pre & e & Hpre & ->).
    rewrite !forwards_app, (forwards_logs _ (debug_lines_logs _ _ _ _)).
    destruct Hpre as [->|(f & t & ->)]; reflexivity.
Qed.

Lemma forward_only_from_webhook_witness :
  forwards (serve Samples.cfg Samples.stalled
              (Samples.post "/twilio-webhook" Samples.sms)) <> []
  /\ responses (serve Samples.cfg Samples.stalled
                  (Samples.post "/twilio-webhook" Samples.sms))
     = [(200, Text twiml)].
Proof.
  assert (H : forwards (serve Samples.cfg Samples.stalled
                          (Samples.post "/twilio-webhook" Samples.sms))
              <> []) by discriminate.
  split; [exact H|].
  exact (proj2 (proj2 (proj2 (forward_only_from_webhook Samples.cfg
                                Samples.stalled
                                (Samples.post "/twilio-webhook" Samples.sms)
                                H)))).
Defined.

(** *** The error handler *)

(** X5.  A request whose body a parser rejected never reaches a route, not
    even on the webhook path: it gets no XML acknowledgment and nothing is
    forwarded; the global error handler logs the error and answers 500
    with a JSON body whose message is the error's own only when the debug
    flag is set.  Without the flag the response is the same for every
    such request. *)
Theorem rejected_body_skips_routes (cfg : config) (W : world) (req : request)
    (err : exn) :
  req_method req <> OPTIONS ->
  req_parsed req = Rejected err ->
  serve cfg W req
  = [LogError (GlobalError err);
     Respond 500
       (Json (JObj [("error", JStr "Internal server error");
                    ("message",
                     JStr (if DEBUG_MODE cfg then message err
                           else "Something went wrong"))]))]
  /\ forwards (serve cfg W req) = []
  /\ ~ In ack (serve cfg W req)
  /\ (DEBUG_MODE cfg = false ->
      forall W' req' err',
        req_method req' <> OPTIONS ->
        req_parsed req' = Rejected err' ->
        responses (serve cfg W' req') = responses (serve cfg W req)).
Proof.
  intros Hm Hp. destruct (serve_rejected cfg W req err Hm Hp) as [Hs _].
  rewrite Hs. split; [reflexivity|]. split; [reflexivity|]. split.
  - intros [H|[H|[]]]; discriminate H.
  - intros Hd W' req' err' Hm' Hp'.
    destruct (serve_rejected cfg W' req' err' Hm' Hp') as [-> _].
    rewrite Hd. reflexivity.
Qed.

Lemma rejected_body_skips_routes_witness :
  req_method MoreSamples.bad_webhook <> OPTIONS
  /\ forwards (serve Samples.cfg Samples.reachable MoreSamples.bad_webhook)
     = []
  /\ ~ In ack (serve Samples.cfg Samples.reachable MoreSamples.bad_webhook).
Proof.
  assert (Hm : req_method MoreSamples.bad_webhook <> OPTIONS) by discriminate.
  split; [exact Hm|].
  pose proof (rejected_body_skips_routes Samples.cfg Samples.reachable
                MoreSamples.bad_webhook _ Hm eq_refl) as (_ & Hf & Ha & _).
  split; assumption.
Defined.

(** *** What the forward logs *)

Lemma outcome_logs (cfg : config) (W : world) (startTime : Z) :
  forallb is_log (outcome cfg W startTime) = true.
Proof.
  unfold outcome. destruct (main_app W) as [st d| |];
    [destruct ((200 <=? st) && (st <? 300)); [destruct (DEBUG_MODE cfg)|]
    | | ]; reflexivity.
Qed.

(** X6.  For a well-formed webhook request (body parsed, sender, recipient
    and count convertible to strings, count not above 2^53) the forward is
    the last thing
    to happen, and what follows the call in the trace is its outcome: on a
    2xx answer one success line with the time elapsed since the start of
    the handler, and the answer's data only with the debug flag; on any
    other answer a failure line followed by the answer's status and data,
    with or without the flag; on a network error or a timeout the failure
    line alone.  A failure line is printed exactly when the answer was not
    2xx, a success line exactly when it was. *)
Theorem forward_outcome_logged (cfg : config) (W : world) (req : request) :
  well_formed req = true ->
  (exists pre c,
     serve cfg W req
     = (pre ++ Forward c :: outcome cfg W (clock W AtStart))%list
     /\ forwards pre = [] /\ responses pre = [(200, Text twiml)])
  /\ existsb is_failure (serve cfg W req) = negb (accepted W)
  /\ existsb is_success (serve cfg W req) = accepted W.
Proof.
  intros Hwf. unfold well_formed in Hwf.
  apply andb_prop in Hwf as [Hroute Hbody].
  destruct (req_parsed req) as [b|err] eqn:Hp; [|discriminate].
  apply andb_prop in Hbody as [Hready Hbounded].
  rewrite (serve_webhook_handled cfg W req b Hp Hroute).
  destruct (handled_ready b Hready Hbounded) as (f & t & l & _ & ->).
  split.
  - eexists (debug_lines cfg W req b
             ++ [Log (Received f t); ack;
                 Log (Forwarding (forward_url cfg))])%list, _.
    split; [rewrite <- !app_assoc; reflexivity|].
    rewrite forwards_app, responses_app,
      (responses_logs _ (debug_lines_logs _ _ _ _)),
      (forwards_logs _ (debug_lines_logs _ _ _ _)).
    split; reflexivity.
  - rewrite !existsb_app.
    assert (Hd1 : existsb is_failure (debug_lines cfg W req b) = false)
      by (unfold debug_lines; destruct (DEBUG_MODE cfg); reflexivity).
    assert (Hd2 : existsb is_success (debug_lines cfg W req b) = false)
      by (unfold debug_lines; destruct (DEBUG_MODE cfg); reflexivity).
    rewrite Hd1, Hd2. cbn [existsb is_failure is_success orb].
    unfold outcome, accepted.
    destruct (main_app W) as [st d| |];
      [destruct ((200 <=? st) && (st <? 300)); [destruct (DEBUG_MODE cfg)|]
      | | ]; split; reflexivity.
Qed.

Lemma forward_outcome_logged_witness :
  well_formed (Samples.post "/twilio-webhook" Samples.sms) = true
  /\ existsb is_failure
       (serve Samples.cfg Samples.failing
          (Samples.post "/twilio-webhook" Samples.sms)) = true.
Proof.
  split; [reflexivity|].
  exact (proj1 (proj2 (forward_outcome_logged Samples.cfg Samples.failing
                         (Samples.post "/twilio-webhook" Samples.sms)
                         eq_refl))).
Defined.

(** *** The debug flag and the console *)

Lemma quiet_app (t u : list event) :
  forallb (fun e => negb (is_debug_line e)) (t ++ u)
  = forallb (fun e => negb (is_debug_line e)) t
    && forallb (fun e => negb (is_debug_line e)) u.
Proof. apply forallb_app. Qed.

(** X7.  Without the debug flag no request line, header list, request body
    or downstream answer of the success path is ever printed.  With the
    flag, a request that reaches the routes is logged first of all, with
    its method, path, headers and parsed body, whichever route then
    serves it; a preflight or a request with a rejected body is not. *)
Theorem debug_lines_gated (cfg : config) (W : world) (req : request) :
  (DEBUG_MODE cfg = false ->
   forallb (fun e => negb (is_debug_line e)) (serve cfg W req) = true)
  /\ (DEBUG_MODE cfg = true ->
      forall b,
        req_parsed req = Parsed b ->
        req_method req <> OPTIONS ->
        exists rest,
          serve cfg W req
          = ([Log (DebugRequest (Date.toISOString (clock W AtDebugLog))
                     (req_method req) (req_path req));
              Log (DebugHeaders (req_headers req));
              Log (DebugBody b)] ++ rest)%list)
  /\ (req_method req = OPTIONS \/ (exists err, req_parsed req = Rejected err) ->
      forallb (fun e => negb (is_debug_line e)) (serve cfg W req) = true).
Proof.
  assert (Hpre : req_method req = OPTIONS
                 \/ (exists err, req_parsed req = Rejected err) ->
            forallb (fun e => negb (is_debug_line e)) (serve cfg W req)
            = true).
  { intros H.
    destruct (method_eqb (req_method req) OPTIONS) eqn:Ho.
    - assert (Hm : req_method req = OPTIONS)
        by (destruct (req_method req); try discriminate; reflexivity).
      destruct (serve_preflight cfg W req Hm) as [-> _]. reflexivity.
    - assert (Hm : req_method req <> OPTIONS)
        by (intros E; rewrite E in Ho; discriminate).
      destruct H as [H|[err Hp]]; [contradiction|].
      destruct (serve_rejected cfg W req err Hm Hp) as [-> _]. reflexivity. }
  split; [|split; [|exact Hpre]].
  - intros Hd.
    destruct (method_eqb (req_method req) OPTIONS) eqn:Ho.
    { apply Hpre. left.
      destruct (req_method req); try discriminate; reflexivity. }
    assert (Hm : req_method req <> OPTIONS)
      by (intros E; rewrite E in Ho; discriminate).
    destruct (req_parsed req) as [b|err] eqn:Hp;
      [|apply Hpre; right; now exists err].
    assert (Hdl : debug_lines cfg W req b = [])
      by (unfold debug_lines; now rewrite Hd).
    destruct (is_get (req_method req) && matches "/health" (req_path req))
      eqn:Hh.
    { destruct (serve_health cfg W req b Hp Hh) as [-> _].
      rewrite Hdl. reflexivity. }
    destruct (method_eqb (req_method req) POST
              && matches "/twilio-webhook" (req_path req)) eqn:Hw.
    2:{ destruct (decodable (req_path req)) eqn:Hdec.
        - destruct (serve_not_found cfg W req b Hm Hp Hh Hw Hdec) as [-> _].
          rewrite Hdl. reflexivity.
        - destruct (serve_undecodable cfg W req b Hm Hp Hh Hw Hdec)
            as [-> _].
          rewrite Hdl. reflexivity. }
    rewrite (serve_webhook_handled cfg W req b Hp Hw), Hdl.
    cbn [app]. destruct (ready b) eqn:Hr.
    + destruct (bounded b) eqn:Hbd.
      2:{ destruct (handled_hung b Hr Hbd) as (f & t & _ & _ & ->).
          reflexivity. }
      destruct (handled_ready b Hr Hbd) as (f & t & l & _ & ->).
      rewrite quiet_app. cbn [forallb is_debug_line negb andb].
      unfold outcome. rewrite Hd.
      destruct (main_app W) as [st d| |];
        [destruct ((200 <=? st) && (st <? 300))| | ]; reflexivity.
    + destruct (handled_unready b Hr) as (pre & e & Hshape & ->).
      destruct Hshape as [->|(f & t & ->)]; reflexivity.
  - intros Hd b Hp Hm.
    assert (Hdl : debug_lines cfg W req b
                  = [Log (DebugRequest (Date.toISOString (clock W AtDebugLog))
                            (req_method req) (req_path req));
                     Log (DebugHeaders (req_headers req));
                     Log (DebugBody b)])
      by (unfold debug_lines; now rewrite Hd).
    destruct (is_get (req_method req) && matches "/health" (req_path req))
      eqn:Hh.
    { destruct (serve_health cfg W req b Hp Hh) as [-> _].
      rewrite Hdl. eexists. reflexivity. }
    destruct (method_eqb (req_method req) POST
              && matches "/twilio-webhook" (req_path req)) eqn:Hw.
    2:{ destruct (decodable (req_path req)) eqn:Hdec.
        - destruct (serve_not_found cfg W req b Hm Hp Hh Hw Hdec) as [-> _].
          rewrite Hdl. eexists. reflexivity.
        - destruct (serve_undecodable cfg W req b Hm Hp Hh Hw Hdec)
            as [-> _].
          rewrite Hdl. eexists. reflexivity. }
    rewrite (serve_webhook_handled cfg W req b Hp Hw), Hdl.
    eexists. reflexivity.
Qed.

Lemma debug_lines_gated_witness :
  DEBUG_MODE MoreSamples.verbose = true
  /\ exists rest,
       serve MoreSamples.verbose Samples.reachable Samples.stray
       = ([Log (DebugRequest (Date.toISOString (clock Samples.reachable
                                                  AtDebugLog))
                  GET "/nonexistent");
           Log (DebugHeaders []);
           Log (DebugBody (JObj []))] ++ rest)%list.
Proof.
  split; [reflexivity|].
  refine (proj1 (proj2 (debug_lines_gated MoreSamples.verbose
                          Samples.reachable Samples.stray))
            eq_refl (JObj []) eq_refl _).
  discriminate.
Defined.

(** *** What the credential reaches *)

Lemma console_app (t u : list event) :
  console (t ++ u) = (console t ++ console u)%list.
Proof. apply filter_app. Qed.

(** X8.  The bearer credential reaches the Authorization header of the
    outbound call and nothing else: with another credential the console
    output and the response of every request are the same, and so are the
    URL and the data of the call. *)
Theorem credential_only_in_header (cfg : config) (key : string) (W : world)
    (req : request) :
  console (serve (with_key cfg key) W req) = console (serve cfg W req)
  /\ responses (serve (with_key cfg key) W req) = responses (serve cfg W req)
  /\ map call_url (forwards (serve (with_key cfg key) W req))
     = map call_url (forwards (serve cfg W req))
  /\ map call_data (forwards (serve (with_key cfg key) W req))
     = map call_data (forwards (serve cfg W req))
  /\ (forall c, In c (forwards (serve (with_key cfg key) W req)) ->
                In ("Authorization", "Bearer " ++ key) (call_headers c)).
Proof.
  destruct (method_eqb (req_method req) OPTIONS) eqn:Ho.
  { assert (Hm : req_method req = OPTIONS)
      by (destruct (req_method req); try discriminate; reflexivity).
    destruct (serve_preflight (with_key cfg key) W req Hm) as [-> _].
    destruct (serve_preflight cfg W req Hm) as [-> _].
    repeat (split; [reflexivity|]). intros c []. }
  assert (Hm : req_method req <> OPTIONS)
    by (intros E; rewrite E in Ho; discriminate).
  destruct (req_parsed req) as [b|err] eqn:Hp.
  2:{ destruct (serve_rejected (with_key cfg key) W req err Hm Hp) as [-> _].
      destruct (serve_rejected cfg W req err Hm Hp) as [-> _].
      repeat (split; [reflexivity|]). intros c []. }
  destruct (is_get (req_method req) && matches "/health" (req_path req))
    eqn:Hh.
  { destruct (serve_health (with_key cfg key) W req b Hp Hh) as [-> _].
    destruct (serve_health cfg W req b Hp Hh) as [-> _].
    repeat (split; [reflexivity|]).
    intros c Hc. exfalso. revert Hc.
    rewrite forwards_app, (forwards_logs _ (debug_lines_logs _ _ _ _)).
    intros []. }
  destruct (method_eqb (req_method req) POST
            && matches "/twilio-webhook" (req_path req)) eqn:Hw.
  2:{ destruct (decodable (req_path req)) eqn:Hdec.
      - destruct (serve_not_found (with_key cfg key) W req b Hm Hp Hh Hw
                    Hdec) as [-> _].
        destruct (serve_not_found cfg W req b Hm Hp Hh Hw Hdec) as [-> _].
        repeat (split; [reflexivity|]).
        intros c Hc. exfalso. revert Hc.
        rewrite forwards_app, (forwards_logs _ (debug_lines_logs _ _ _ _)).
        intros [].
      - destruct (serve_undecodable (with_key cfg key) W req b Hm Hp Hh Hw
                    Hdec) as [-> _].
        destruct (serve_undecodable cfg W req b Hm Hp Hh Hw Hdec)
          as [-> _].
        repeat (split; [reflexivity|]).
        intros c Hc. exfalso. revert Hc.
        rewrite forwards_app, (forwards_logs _ (debug_lines_logs _ _ _ _)).
        intros []. }
  rewrite (serve_webhook_handled (with_key cfg key) W req b Hp Hw),
    (serve_webhook_handled cfg W req b Hp Hw).
  change (debug_lines (with_key cfg key) W req b)
    with (debug_lines cfg W req b).
  rewrite !console_app, !responses_app, !forwards_app,
    (forwards_logs _ (debug_lines_logs _ _ _ _)).
  destruct (ready b) eqn:Hr.
  - destruct (bounded b) eqn:Hbd.
    2:{ destruct (handled_hung b Hr Hbd) as (f & t & _ & _ & Hh').
        rewrite (Hh' (with_key cfg key) W), (Hh' cfg W).
        repeat (split; [reflexivity|]). intros c []. }
    destruct (handled_ready b Hr Hbd) as (f & t & l & _ & Hh').
    rewrite (Hh' (with_key cfg key) W), (Hh' cfg W).
    change (outcome (with_key cfg key) W (clock W AtStart))
      with (outcome cfg W (clock W AtStart)).
    rewrite !console_app, !responses_app, !forwards_app,
      (forwards_logs _ (outcome_logs _ _ _)).
    repeat (split; [reflexivity|]).
    intros c [<-|[]]. right. now left.
  - destruct (handled_unready b Hr) as (pre & e & Hshape & Hh').
    rewrite (Hh' (with_key cfg key) W), (Hh' cfg W).
    repeat (split; [reflexivity|]).
    intros c Hc. exfalso. revert Hc. rewrite forwards_app.
    destruct Hshape as [->|(f & t & ->)]; intros [].
Qed.

(** *** What the handler reads of the body *)

(** X10.  The handler reads From, To, Body, MessageSid, NumMedia and the
    attachment fields below the count, and nothing else: two bodies that
    agree on the five fields and have the same attachment list are handled
    alike, event for event.  Every other field of the inbound message is
    dropped. *)
Theorem handler_reads_six_fields (cfg : config) (W : world) (b b' : value) :
  nullish b' = nullish b ->
  (forall k, In k ["From"; "To"; "Body"; "MessageSid"; "NumMedia"] ->
             field b' k = field b k) ->
  attachments b' = attachments b ->
  handled cfg W b' = handled cfg W b.
Proof.
  intros Hn Hf Ha.
  assert (Htry : webhook_try cfg W b' init = webhook_try cfg W b init).
  { unfold webhook_try, bind, lift.
    destruct (nullish b) eqn:Hb.
    - destruct b; try discriminate Hb; destruct b'; try discriminate Hn;
        reflexivity.
    - rewrite !(get_field b' _ Hn), !(get_field b _ Hb).
      rewrite !Hf by (cbn; auto 10).
      destruct (ToString (field b "From")) as [from_s|e|];
        [|reflexivity|reflexivity].
      destruct (ToString (field b "To")) as [to_s|e|];
        [|reflexivity|reflexivity].
      unfold attachments in Ha.
      rewrite (get_field b' _ Hn), (get_field b _ Hb) in Ha.
      rewrite Hf in Ha by (cbn; auto 10).
      destruct (ToString (default (field b "NumMedia") (JStr "0")))
        as [num_s|e|]; [|reflexivity|reflexivity].
      rewrite Ha. reflexivity. }
  unfold handled, twilio_webhook, try_catch. now rewrite Htry.
Qed.

Lemma handler_reads_six_fields_witness :
  attachments Samples.plain = attachments (JObj
    [("NumMedia", JStr "0"); ("From", JStr "+1A"); ("To", JStr "+1B");
     ("MessageSid", JStr "SM1"); ("Body", JStr "hi");
     ("AccountSid", JStr "AC1")])
  /\ handled Samples.cfg Samples.reachable Samples.plain
     = handled Samples.cfg Samples.reachable (JObj
         [("NumMedia", JStr "0"); ("From", JStr "+1A"); ("To", JStr "+1B");
          ("MessageSid", JStr "SM1"); ("Body", JStr "hi");
          ("AccountSid", JStr "AC1")]).
Proof.
  split; [reflexivity|].
  apply handler_reads_six_fields; [reflexivity | | reflexivity].
  intros k [<-|[<-|[<-|[<-|[<-|[]]]]]]; reflexivity.
Defined.

(** *** Counts *)

Lemma codes_uint (u : Decimal.uint) (a : Z) :
  digits (codes (NilEmpty.string_of_uint u)) (Some a) = Some (read u a).
Proof.
  revert a. induction u; intros a; cbn [NilEmpty.string_of_uint read];
    [reflexivity | ..];
    match goal with
    | |- digits (codes (String ?c ?s)) _ = _ =>
        let n := eval vm_compute in (nat_of_ascii c) in
        let k := eval vm_compute in (Z.of_nat (n - 48)) in
        change (codes (String c s)) with (n :: codes s);
        cbn [digits];
        change (is_digit n) with true;
        change (Z.of_nat (n - 48)) with k
    end;
    cbv iota; rewrite IHu; f_equal; f_equal; lia.
Qed.

Lemma read_acc (u : Decimal.uint) (p : positive) :
  read u (Zpos p) = Zpos (Pos.of_uint_acc u p).
Proof.
  revert p. induction u; intros p; cbn [read Pos.of_uint_acc];
    [reflexivity | ..];
    match goal with
    | |- read _ ?x = Zpos (Pos.of_uint_acc _ ?q) =>
        replace x with (Zpos q) by lia; apply IHu
    end.
Qed.

Lemma read_of_uint (u : Decimal.uint) :
  read u 0 = Z.of_N (Pos.of_uint u).
Proof.
  induction u; cbn [read Pos.of_uint]; [reflexivity | exact IHu | ..];
    match goal with
    | |- read _ ?x = Z.of_N (Npos (Pos.of_uint_acc _ ?q)) =>
        replace x with (Zpos q) by lia; apply read_acc
    end.
Qed.

Lemma skip_ws_digit (c : nat) (l : list nat) :
  is_digit c = true \/ c = 45%nat -> skip_ws (c :: l) = c :: l.
Proof.
  intros Hc.
  assert (H1 : ws1 c = false).
  { unfold ws1, is_digit in *. destruct Hc as [Hc| ->]; [|reflexivity].
    apply andb_prop in Hc as [Hlo Hhi].
    apply Nat.leb_le in Hlo, Hhi.
    apply orb_false_intro; [apply andb_false_intro2; apply Nat.leb_gt; lia
                           | apply Nat.eqb_neq; lia]. }
  assert (Hlt : (c < 194)%nat).
  { unfold is_digit in Hc. destruct Hc as [Hc| ->]; [|lia].
    apply andb_prop in Hc as [_ Hhi]. apply Nat.leb_le in Hhi. lia. }
  assert (H2 : forall c2, ws2 c c2 = false).
  { intros c2. unfold ws2.
    replace (c =? 194)%nat with false by (symmetry; apply Nat.eqb_neq; lia).
    reflexivity. }
  assert (H3 : forall c2 c3, ws3 c c2 c3 = false).
  { intros c2 c3. unfold ws3.
    replace (c =? 225)%nat with false by (symmetry; apply Nat.eqb_neq; lia).
    replace (c =? 226)%nat with false by (symmetry; apply Nat.eqb_neq; lia).
    replace (c =? 227)%nat with false by (symmetry; apply Nat.eqb_neq; lia).
    replace (c =? 239)%nat with false by (symmetry; apply Nat.eqb_neq; lia).
    reflexivity. }
  cbn [skip_ws]. rewrite H1.
  destruct l as [|c2 l2]; [reflexivity|]. rewrite H2.
  destruct l2 as [|c3 l3]; [reflexivity|]. now rewrite H3.
Qed.

Lemma uint_head (u : Decimal.uint) :
  u <> Decimal.Nil ->
  exists c l, codes (NilEmpty.string_of_uint u) = c :: l
              /\ is_digit c = true.
Proof.
  intros Hu. destruct u; [contradiction | ..];
    cbn [NilEmpty.string_of_uint];
    match goal with
    | |- exists _ _, codes (String ?c ?s) = _ /\ _ =>
        let n := eval vm_compute in (nat_of_ascii c) in
        exists n, (codes s); split; reflexivity
    end.
Qed.

(** Up to 2^53 every integer is a double. *)
Lemma round53_exact (m : Z) : 0 <= m <= max_safe -> round53 m = m.
Proof.
  intros Hm. unfold round53.
  destruct (Z.eq_dec m max_safe) as [->|Hne]; [reflexivity|].
  assert (Hlog : Z.log2 m + 1 <= 53).
  { destruct (Z.eq_dec m 0) as [->|H0]; [cbn; lia|].
    assert (Z.log2 m < 53); [|lia].
    apply Z.log2_lt_pow2; [lia|]. unfold max_safe in *. lia. }
  apply Z.leb_le in Hlog. now rewrite Hlog.
Qed.

Lemma to_number_exact (sign m : Z) :
  0 <= m <= max_safe -> to_number sign m = Int (sign * m).
Proof.
  intros Hm. unfold to_number. rewrite (round53_exact m Hm).
  assert (H : (m <? 2 ^ 1024) = true).
  { apply Z.ltb_lt. apply Z.le_lt_trans with max_safe; [lia|].
    unfold max_safe. change 9007199254740992 with (2 ^ 53).
    apply Z.pow_lt_mono_r; lia. }
  now rewrite H.
Qed.

(** [parseInt] reads back the decimal rendering of every integer of
    magnitude at most 2^53. *)
Lemma parseInt_dec (n : Z) :
  Z.abs n <= max_safe -> parseInt (dec n) = Int n.
Proof.
  intros Hn. destruct n as [|p|p]; [reflexivity | |].
  - unfold dec, parseInt.
    destruct (uint_head (Pos.to_uint p)
                (DecimalPos.Unsigned.to_uint_nonnil p))
      as (c & l & Hcodes & Hc).
    pose proof (codes_uint (Pos.to_uint p) 0) as Hd.
    rewrite Hcodes in *. rewrite skip_ws_digit by (now left).
    assert (Hs : ((c =? 45) || (c =? 43))%nat = false).
    { unfold is_digit in Hc. apply andb_prop in Hc as [Hlo _].
      apply Nat.leb_le in Hlo.
      apply orb_false_intro; apply Nat.eqb_neq; lia. }
    assert (H45 : (c =? 45)%nat = false)
      by (now apply orb_false_elim in Hs as [? _]).
    rewrite Hs, H45.
    cbn [digits] in Hd |- *. rewrite Hc in Hd |- *.
    rewrite Hd, read_of_uint.
    rewrite DecimalPos.Unsigned.of_to.
    rewrite to_number_exact by (cbn in *; lia). reflexivity.
  - unfold dec, parseInt.
    change (codes ("-" ++ NilEmpty.string_of_uint (Pos.to_uint p)))
      with (45%nat :: codes (NilEmpty.string_of_uint (Pos.to_uint p))).
    rewrite skip_ws_digit by (now right).
    change ((45 =? 45)%nat) with true. cbn [orb].
    destruct (uint_head (Pos.to_uint p)
                (DecimalPos.Unsigned.to_uint_nonnil p))
      as (c & l & Hcodes & Hc).
    pose proof (codes_uint (Pos.to_uint p) 0) as Hd.
    rewrite Hcodes in *.
    cbn [digits] in Hd |- *. rewrite Hc in Hd |- *.
    rewrite Hd, read_of_uint.
    rewrite DecimalPos.Unsigned.of_to.
    rewrite to_number_exact by (cbn in *; lia). reflexivity.
Qed.

Lemma safe_range (n : safe) : Z.abs n <= max_safe.
Proof. apply Z.leb_le, in_range. Qed.

(** X11.  [parseInt] reads back the decimal rendering of every integer of
    magnitude at most 2^53, so a count sent as such a JSON number is the
    same count as its decimal string: with NumMedia the number [n >= 0] or
    the string of [n], the attachment list is the list of the truthy
    fields MediaUrl0 .. MediaUrl(n-1). *)
Theorem count_as_number_or_string (b : value) (n : safe) :
  nullish b = false ->
  0 <= n ->
  field b "NumMedia" = JNum n \/ field b "NumMedia" = JStr (dec n) ->
  to_string (JNum n) = Some (dec n)
  /\ parseInt (dec n) = Int n
  /\ attachments b
     = Ok (filter truthy
             (map (fun i => field b (MediaUrl i)) (seq 0 (Z.to_nat n)))).
Proof.
  intros Hb Hpos Hnum. pose proof (safe_range n) as Hn.
  split; [reflexivity|]. split; [now apply parseInt_dec|].
  rewrite (attachments_collect b (dec n) Hb)
    by (destruct Hnum as [-> | ->]; reflexivity).
  rewrite parseInt_dec by assumption.
  rewrite <- (Z2Nat.id n) at 1 by assumption.
  apply collect_count; [assumption|]. rewrite Z2Nat.id; lia.
Qed.

Lemma count_as_number_or_string_witness :
  field MoreSamples.counted "NumMedia" = JNum (mkSafe 2 eq_refl)
  /\ attachments MoreSamples.counted = Ok [JStr "http://x/1.jpg"].
Proof.
  split; [reflexivity|].
  refine (proj2 (proj2 (count_as_number_or_string MoreSamples.counted
                          (mkSafe 2 eq_refl) eq_refl _ _))).
  - discriminate.
  - left. reflexivity.
Defined.

(** X12.  A count that parses to zero or to a negative integer gives the
    empty attachment list, whatever attachment fields the body has: the
    loop body never runs. *)
Theorem nonpositive_count_is_empty (b : value) (s : string) (n : Z) :
  nullish b = false ->
  to_string (default (field b "NumMedia") (JStr "0")) = Some s ->
  parseInt s = Int n ->
  n <= 0 ->
  attachments b = Ok []
  /\ forall fuel, media_loop b (Int n) fuel 0 [] = Ok [].
Proof.
  intros Hb Hs Hn Hle. split.
  - rewrite (attachments_collect b s Hb Hs), Hn. now apply collect_negative.
  - intros fuel. destruct fuel; cbn [media_loop less_than];
      now replace (0 <? n) with false by (symmetry; apply Z.ltb_ge; lia).
Qed.

Lemma nonpositive_count_is_empty_witness :
  parseInt "-3" = Int (-3)
  /\ truthy (field MoreSamples.negative "MediaUrl0") = true
  /\ attachments MoreSamples.negative = Ok [].
Proof.
  split; [reflexivity|]. split; [reflexivity|].
  refine (proj1 (nonpositive_count_is_empty MoreSamples.negative "-3" (-3)
                   eq_refl eq_refl eq_refl _)).
  lia.
Defined.

(** *** Start-up and shutdown *)

Lemma blank_falsy (env : environment) (name : string) :
  blank env name -> truthy (process_env env name) = false.
Proof. intros H. now apply falsy_env. Qed.

Lemma filled_truthy (env : environment) (name : string) :
  filled env name -> truthy (process_env env name) = true.
Proof. intros H. now apply truthy_env. Qed.

(** X13.  The start-up error names exactly the required variables that are
    unset or empty, in the order MAIN_APP_URL, SUPABASE_ANON_KEY and
    separated by a comma and a space; the exit code is 1 in each case. *)
Theorem missing_names_logged (env : environment) (os : platform) :
  (blank env "MAIN_APP_URL" -> blank env "SUPABASE_ANON_KEY" ->
   startup env os
   = Exited [LogError (MissingEnv "MAIN_APP_URL, SUPABASE_ANON_KEY");
             Exit 1])
  /\ (blank env "MAIN_APP_URL" -> filled env "SUPABASE_ANON_KEY" ->
      startup env os = Exited [LogError (MissingEnv "MAIN_APP_URL"); Exit 1])
  /\ (filled env "MAIN_APP_URL" -> blank env "SUPABASE_ANON_KEY" ->
      startup env os
      = Exited [LogError (MissingEnv "SUPABASE_ANON_KEY"); Exit 1]).
Proof.
  unfold startup, missingEnvVars, requiredEnvVars. cbn [filter].
  split; [|split]; intros Hu Hk.
  - now rewrite (blank_falsy _ _ Hu), (blank_falsy _ _ Hk).
  - now rewrite (blank_falsy _ _ Hu), (filled_truthy _ _ Hk).
  - now rewrite (filled_truthy _ _ Hu), (blank_falsy _ _ Hk).
Qed.

Lemma missing_names_logged_witness :
  blank MoreSamples.env_nothing "MAIN_APP_URL"
  /\ blank MoreSamples.env_nothing "SUPABASE_ANON_KEY"
  /\ startup MoreSamples.env_nothing Samples.free
     = Exited [LogError (MissingEnv "MAIN_APP_URL, SUPABASE_ANON_KEY");
               Exit 1].
Proof.
  assert (Hu : blank MoreSamples.env_nothing "MAIN_APP_URL")
    by (left; reflexivity).
  assert (Hk : blank MoreSamples.env_nothing "SUPABASE_ANON_KEY")
    by (left; reflexivity).
  split; [exact Hu|]. split; [exact Hk|].
  exact (proj1 (missing_names_logged MoreSamples.env_nothing Samples.free)
           Hu Hk).
Defined.

Lemma exits_app (t u : list event) :
  exits (t ++ u) = (exits t ++ exits u)%list.
Proof. apply flat_map_app. Qed.

Lemma exits_logs (t : list event) : forallb is_log t = true -> exits t = [].
Proof.
  induction t as [|e t IH]; [reflexivity|].
  simpl. intros H. apply andb_prop in H as [He Ht].
  destruct e; try discriminate; simpl; auto.
Qed.

Lemma serve_no_exit (cfg : config) (W : world) (req : request) :
  exits (serve cfg W req) = [].
Proof.
  destruct (proj1 (serve_cases cfg W req))
    as [ | err | b | b | b | b from_s to_s Hp Hu
       | b from_s to_s num_s mediaUrls logs Hp Hr Hf Ht Hn Hc Hlogs
       | b pre e Hp Hr Hpre];
    repeat rewrite exits_app;
    rewrite ?(exits_logs _ (debug_lines_logs _ _ _ _)),
      ?(exits_logs _ Hlogs), ?(exits_logs _ Hpre);
    reflexivity.
Qed.

(** The listening application serves the requests it reaches and then, if
    a signal came and every handler before it ended, shuts down. *)
Lemma live_shape (cfg : config) (inputs : list input) :
  (signalled cfg inputs = false
   /\ live cfg inputs
      = flat_map (fun a => serve cfg (fst a) (snd a)) (reached cfg inputs))
  \/ (signalled cfg inputs = true
      /\ exists sig,
           live cfg inputs
           = (flat_map (fun a => serve cfg (fst a) (snd a))
                (reached cfg inputs) ++ shutdown sig)%list).
Proof.
  induction inputs as [|i inputs IH].
  - left. split; reflexivity.
  - destruct i as [W req|sig].
    + cbn [live reached signalled flat_map fst snd].
      destruct (finishes cfg W req); cbn [andb flat_map].
      * destruct IH as [[Hs ->]|[Hs (sig & ->)]]; [left | right];
          (split; [assumption|]); [reflexivity|].
        exists sig. now rewrite app_assoc.
      * left. split; reflexivity.
    + right. split; [reflexivity|]. exists sig. reflexivity.
Qed.

Lemma served_all_no_exit (cfg : config) (arrivals : list (world * request)) :
  exits (flat_map (fun a => serve cfg (fst a) (snd a)) arrivals) = [].
Proof.
  induction arrivals as [|a arrivals IH]; [reflexivity|].
  cbn [flat_map]. now rewrite exits_app, serve_no_exit, IH.
Qed.

(** In a trace whose only exit is its last event, nothing follows an
    exit. *)
Lemma nothing_after_last_exit (t pre post : list event) (c0 c : Z) :
  exits t = [] ->
  (t ++ [Exit c0])%list = (pre ++ Exit c :: post)%list ->
  post = [].
Proof.
  revert pre. induction t as [|e t IH]; intros pre Ht E.
  - destruct pre as [|x pre]; cbn in E.
    + now injection E.
    + injection E as _ E. now destruct pre.
  - destruct pre as [|x pre]; cbn in E.
    + injection E as -> _. discriminate Ht.
    + injection E as _ E. apply (IH pre); [|assumption].
      destruct e; cbn in Ht; try assumption. discriminate Ht.
Qed.

(** The application comes to listen exactly when both required variables
    are filled and the platform grants the port. *)
Lemma startup_serving (env : environment) (os : platform) :
  (exists cfg events, startup env os = Serving cfg events)
  <-> filled env "MAIN_APP_URL" /\ filled env "SUPABASE_ANON_KEY"
      /\ os (PORT (load env)) = None.
Proof.
  unfold startup, missingEnvVars, requiredEnvVars. cbn [filter].
  destruct (truthy (process_env env "MAIN_APP_URL")) eqn:Hu;
    destruct (truthy (process_env env "SUPABASE_ANON_KEY")) eqn:Hk;
    cbn [negb length Nat.ltb Nat.leb].
  1:{ apply truthy_env in Hu, Hk.
      destruct (os (PORT (load env))) as [e|].
      - split; [intros (cfg & events & H); discriminate H
               | intros (_ & _ & H); discriminate H].
      - split; [now intros _ | intros _; eexists _, _; reflexivity]. }
  all: split; [intros (cfg & events & H); discriminate H|].
  all: intros (Hu' & Hk' & _);
    apply filled_truthy in Hu', Hk'; congruence.
Qed.

(** X14.  The process exits at most once and nothing happens after it
    exits.  When a required variable is unset or empty, or the platform
    refuses the port, the exit code is 1 and no request is served.
    Otherwise the requests that arrive before the first SIGTERM or SIGINT
    are served one after the other, up to the first whose handler does not
    end; a signal that comes after handlers that all ended ends the
    process with code 0, and what arrives afterwards is not served;
    without such a signal the process does not exit. *)
Theorem process_exits_once (env : environment) (os : platform)
    (inputs : list input) :
  exits (process env os inputs)
  = match startup env os with
    | Exited _ => [1]
    | Serving cfg _ => if signalled cfg inputs then [0] else []
    end
  /\ responses (process env os inputs)
     = match startup env os with
       | Exited _ => []
       | Serving cfg _ =>
           flat_map (fun a => responses (serve cfg (fst a) (snd a)))
             (reached cfg inputs)
       end
  /\ (forall pre c post,
        process env os inputs = (pre ++ Exit c :: post)%list -> post = [])
  /\ ((exists cfg events, startup env os = Serving cfg events)
      <-> filled env "MAIN_APP_URL" /\ filled env "SUPABASE_ANON_KEY"
          /\ os (PORT (load env)) = None).
Proof.
  split; [|split; [|split; [|apply startup_serving]]];
    unfold process, startup;
    destruct (0 <? length (missingEnvVars env))%nat;
    try reflexivity.
  - destruct (os (PORT (load env))) as [e|]; [reflexivity|].
    destruct (live_shape (load env) inputs) as [[Hs ->]|[Hs (sig & ->)]];
      rewrite Hs, !exits_app, served_all_no_exit; reflexivity.
  - destruct (os (PORT (load env))) as [e|]; [reflexivity|].
    assert (Hall : forall l,
              responses (flat_map (fun a => serve (load env) (fst a) (snd a))
                           l)
              = flat_map (fun a => responses (serve (load env) (fst a)
                                                (snd a))) l).
    { induction l as [|a l IH]; [reflexivity|].
      cbn [flat_map]. now rewrite responses_app, IH. }
    destruct (live_shape (load env) inputs) as [[Hs ->]|[Hs (sig & ->)]];
      rewrite !responses_app, Hall; cbn; [reflexivity|].
    now rewrite app_nil_r.
  - intros pre c post E.
    apply (nothing_after_last_exit
             [LogError (MissingEnv (String.concat ", " (missingEnvVars env)))]
             pre post 1 c); [reflexivity | exact E].
  - destruct (os (PORT (load env))) as [e|].
    { intros pre c post E.
      apply (nothing_after_last_exit [Uncaught e] pre post 1 c);
        [reflexivity | exact E]. }
    set (cfg := load env).
    set (boot := [Listen (PORT cfg); _; _; _; _; _; _]).
    assert (Hboot : exits boot = []) by reflexivity.
    destruct (live_shape cfg inputs) as [[Hs ->]|[Hs (sig & ->)]];
      intros pre c post E.
    + exfalso.
      assert (Hex : exits (pre ++ Exit c :: post) = [])
        by (rewrite <- E, exits_app, Hboot, served_all_no_exit;
            reflexivity).
      rewrite exits_app in Hex. cbn in Hex.
      now destruct (exits pre).
    + apply (nothing_after_last_exit
               (boot ++ flat_map (fun a => serve cfg (fst a) (snd a))
                          (reached cfg inputs)
                ++ [Log (Banner (signal_name sig
                                 ++ " received, shutting down gracefully"))])
               pre post 0 c).
      * rewrite !exits_app, Hboot, served_all_no_exit. reflexivity.
      * rewrite <- E. unfold shutdown. rewrite <- !app_assoc. reflexivity.
Qed.

(** X15.  Two environments that differ in SUPABASE_ANON_KEY only, both
    with the required variables filled, start alike: the same events, and
    configurations that differ in the credential only, so start-up does
    not print the credential.  When the platform grants the port the
    application starts with the configuration read from the environment:
    the debug flag is on exactly when DEBUG_MODE is the string "true"; the
    port is the string of PORT when PORT is set and not empty, and the
    number 3001 when PORT is unset or empty. *)
Theorem startup_hides_credential (env env' : environment) (os : platform) :
  filled env "MAIN_APP_URL" ->
  filled env "SUPABASE_ANON_KEY" ->
  filled env' "SUPABASE_ANON_KEY" ->
  (forall name, name <> "SUPABASE_ANON_KEY" ->
                getenv name env' = getenv name env) ->
  startup env' os
  = match startup env os with
    | Serving cfg events =>
        Serving (with_key cfg (text env' "SUPABASE_ANON_KEY")) events
    | Exited events => Exited events
    end
  /\ (os (PORT (load env)) = None ->
      exists events, startup env os = Serving (load env) events)
  /\ (DEBUG_MODE (load env) = true <-> getenv "DEBUG_MODE" env = Some "true")
  /\ (forall p, getenv "PORT" env = Some p -> p <> "" ->
                PORT (load env) = JStr p)
  /\ (blank env "PORT" -> PORT (load env) = JNum default_port).
Proof.
  intros Hu Hk Hk' Hsame.
  assert (Hu' : filled env' "MAIN_APP_URL").
  { destruct Hu as (u & Hu & Hne). exists u.
    rewrite Hsame by discriminate. now split. }
  assert (Hload : load env' = with_key (load env)
                                (text env' "SUPABASE_ANON_KEY")).
  { unfold load, with_key, text, process_env.
    cbn [PORT MAIN_APP_URL SUPABASE_ANON_KEY DEBUG_MODE].
    rewrite (Hsame "PORT"), (Hsame "MAIN_APP_URL"), (Hsame "DEBUG_MODE")
      by discriminate.
    reflexivity. }
  split; [|split; [|split; [|split]]].
  - unfold startup, missingEnvVars, requiredEnvVars. cbn [filter].
    rewrite (filled_truthy _ _ Hu), (filled_truthy _ _ Hk),
      (filled_truthy _ _ Hu'), (filled_truthy _ _ Hk').
    cbn [negb length Nat.ltb Nat.leb]. rewrite Hload.
    change (PORT (with_key (load env) (text env' "SUPABASE_ANON_KEY")))
      with (PORT (load env)).
    destruct (os (PORT (load env))); reflexivity.
  - intros Hos. unfold startup, missingEnvVars, requiredEnvVars.
    cbn [filter].
    rewrite (filled_truthy _ _ Hu), (filled_truthy _ _ Hk).
    cbn [negb length Nat.ltb Nat.leb]. rewrite Hos.
    eexists. reflexivity.
  - unfold load. cbn [DEBUG_MODE].
    destruct (getenv "DEBUG_MODE" env) as [s|].
    + rewrite String.eqb_eq. split; [now intros -> | now intros [= ->]].
    + split; discriminate.
  - intros p Hp Hne. unfold load, process_env. cbn [PORT]. rewrite Hp.
    cbn [truthy]. apply String.eqb_neq in Hne. now rewrite Hne.
  - intros [Hp|Hp]; unfold load, process_env; cbn [PORT]; now rewrite Hp.
Qed.

Lemma startup_hides_credential_witness :
  filled Samples.env_ok "SUPABASE_ANON_KEY"
  /\ filled MoreSamples.env_rotated "SUPABASE_ANON_KEY"
  /\ startup MoreSamples.env_rotated Samples.free
     = match startup Samples.env_ok Samples.free with
       | Serving cfg events => Serving (with_key cfg "other") events
       | Exited events => Exited events
       end.
Proof.
  assert (Hu : filled Samples.env_ok "MAIN_APP_URL")
    by (eexists; split; [reflexivity | discriminate]).
  assert (Hk : filled Samples.env_ok "SUPABASE_ANON_KEY")
    by (eexists; split; [reflexivity | discriminate]).
  assert (Hk' : filled MoreSamples.env_rotated "SUPABASE_ANON_KEY")
    by (eexists; split; [reflexivity | discriminate]).
  split; [exact Hk|]. split; [exact Hk'|].
  refine (proj1 (startup_hides_credential Samples.env_ok
                   MoreSamples.env_rotated Samples.free Hu Hk Hk' _)).
  intros name Hne. cbn [getenv Samples.env_ok MoreSamples.env_rotated].
  destruct (String.eqb name "MAIN_APP_URL"); [reflexivity|].
  apply String.eqb_neq in Hne. now rewrite Hne.
Defined.
